(** * Fitness studio booking API: a shallow embedding and its verification

    The development follows the layout of the application:

    - [PyStr], [PyTime]: the parts of the Python runtime the code relies on
      (text methods, [datetime] with optional offset, [pytz] zones);
    - [FitnessClass], [Booking], [BookingCreate], [TimezoneManager]: the
      modules [app/models/booking.py], [app/schemas/booking.py] and
      [app/utils/timezone_utils.py];
    - [Session]: the SQLAlchemy unit of work, as far as the service uses it
      (identity map, pending changes, commit, rollback);
    - [BookingService]: [app/services/booking.py];
    - the [except] clauses of the [POST /book] route.

    Integers are Python integers (unbounded), hence [Z].  Text is modelled
    by [string], one character per element: that is Python's [str] for
    ASCII text ([PyStr.isascii]), on which the text methods below are
    those of Python.  Outside ASCII Python's methods follow the Unicode
    tables (more blanks, case mappings that change the length), which are
    not modelled: what is proved of the methods by computing through them
    is stated for ASCII text.  Timestamps count microseconds. *)

From Stdlib Require Import ZArith List String Ascii Bool Lia DecimalString.
From Stdlib Require Import Sorted Permutation.
Import ListNotations.
Open Scope string_scope.
Open Scope Z_scope.

(* ================================================================= *)
(** ** Python text *)

Module PyStr.

Definition code (c : ascii) : Z := Z.of_nat (nat_of_ascii c).

(** [str.isspace] on one character: TAB, LF, VT, FF, CR, the four
    separators FS GS RS US, and the blank. *)
Definition isspace (c : ascii) : bool :=
  let n := code c in
  ((9 <=? n) && (n <=? 13)) || ((28 <=? n) && (n <=? 32)).

Definition islower (c : ascii) : bool := (97 <=? code c) && (code c <=? 122).
Definition isupper (c : ascii) : bool := (65 <=? code c) && (code c <=? 90).
Definition iscased (c : ascii) : bool := islower c || isupper c.

Definition toupper (c : ascii) : ascii :=
  if islower c then ascii_of_nat (nat_of_ascii c - 32) else c.
Definition tolower (c : ascii) : ascii :=
  if isupper c then ascii_of_nat (nat_of_ascii c + 32) else c.

Fixpoint lstrip (s : string) : string :=
  match s with
  | String c rest => if isspace c then lstrip rest else s
  | EmptyString => EmptyString
  end.

Definition reverse (s : string) : string :=
  string_of_list_ascii (rev (list_ascii_of_string s)).

Definition rstrip (s : string) : string := reverse (lstrip (reverse s)).

(** [str.strip()] without argument. *)
Definition strip (s : string) : string := rstrip (lstrip s).

(** [str.title()]: a cased character that follows an uncased one (or
    starts the text) is put in title case, one that follows a cased
    character in lower case. *)
Fixpoint title_from (previous_is_cased : bool) (s : string) : string :=
  match s with
  | EmptyString => EmptyString
  | String c rest =>
      String (if previous_is_cased then tolower c else toupper c)
             (title_from (iscased c) rest)
  end.

Definition title (s : string) : string := title_from false s.

Fixpoint upper (s : string) : string :=
  match s with
  | EmptyString => EmptyString
  | String c rest => String (toupper c) (upper rest)
  end.

Definition len (s : string) : Z := Z.of_nat (String.length s).

(** [str(n)] for an integer. *)
Definition of_int (n : Z) : string := NilZero.string_of_int (Z.to_int n).

(** Truth value of a text: the empty text is false. *)
Definition truthy (s : string) : bool :=
  match s with EmptyString => false | _ => true end.

(** [str.isascii] *)
Definition isascii (s : string) : bool :=
  forallb (fun c => code c <? 128) (list_ascii_of_string s).

End PyStr.

(* ================================================================= *)
(** ** Python [datetime] and [pytz] *)

Module PyTime.

(** A zone of the [pytz] database: its name, the offset in force at a
    UTC instant, and the offset [localize] picks for a wall-clock reading
    (with the default [is_dst=False]). *)
Record tzinfo := {
  zone : string;
  utcoffset_at_utc : Z -> Z;
  utcoffset_at_wall : Z -> Z
}.

(** What an offset-aware [datetime] carries: [pytz] attaches the zone at
    one definite offset. *)
Record fixed_offset := { tzname : string; utcoffset : Z }.

(** [wall] is the reading of the date and time fields, in microseconds;
    [tz = None] is an offset-free ("naive") value. *)
Record datetime := { wall : Z; tz : option fixed_offset }.

Definition naive (w : Z) : datetime := {| wall := w; tz := None |}.

(** [tz.fromutc]: the instant [utc] expressed in the zone. *)
Definition fromutc (z : tzinfo) (utc : Z) : datetime :=
  let off := utcoffset_at_utc z utc in
  {| wall := utc + off;
     tz := Some {| tzname := zone z; utcoffset := off |} |}.

(** [datetime.now(tz)] when the system clock reads [utcnow]. *)
Definition now (z : tzinfo) (utcnow : Z) : datetime := fromutc z utcnow.

(** [datetime.now()]: the platform's local reading, offset-free. *)
Definition now_naive (local : tzinfo) (utcnow : Z) : datetime :=
  naive (utcnow + utcoffset_at_utc local utcnow).

(** [tz.localize(dt)] on an offset-free reading. *)
Definition localize (z : tzinfo) (w : Z) : Z * fixed_offset :=
  (w, {| tzname := zone z; utcoffset := utcoffset_at_wall z w |}).

(** [dt.astimezone(tz)] on an offset-aware value. *)
Definition astimezone (w : Z) (o : fixed_offset) (target : tzinfo) : datetime :=
  fromutc target (w - utcoffset o).

Definition day : Z := 86400000000.
Definition hour : Z := 3600000000.
Definition minute : Z := 60000000.

(** [dt.replace(hour=h, minute=m, second=0, microsecond=0)]. *)
Definition replace_time (dt : datetime) (h m : Z) : datetime :=
  {| wall := (wall dt / day) * day + h * hour + m * minute; tz := tz dt |}.

(** [dt + timedelta(days=n)]. *)
Definition add_days (dt : datetime) (n : Z) : datetime :=
  {| wall := wall dt + n * day; tz := tz dt |}.

End PyTime.
Export PyTime.

(* ================================================================= *)
(** ** Exceptions *)

(** Values that appear in the [details] dictionaries. *)
Inductive pyvalue :=
| VInt (n : Z)
| VStr (s : string)
| VDatetime (d : datetime).

Definition details := list (string * pyvalue).

(** One entry of a pydantic [ValidationError]: the constraint that was
    broken ([ge], [min_length], [max_length]) or the [ValueError] a
    validator raised. *)
Inductive error_type :=
| greater_than_equal
| string_too_short
| string_too_long
| value_error (msg : string).

(** The four classes of [app/utils/exceptions.py], and the exceptions of
    the runtime and of the libraries that reach the application. *)
Inductive exn :=
| ClassNotFoundException (message : string) (d : details)
| NoSlotsAvailableException (message : string) (d : details)
| InvalidBookingDataException (message : string) (d : details)
| DuplicateBookingException (message : string) (d : details)
| TypeError (msg : string)
| OverflowError (msg : string)
| UnknownTimeZoneError (name : string)
| IntegrityError (msg : string)
| OperationalError (msg : string)
| InvalidRequestError (msg : string)
| ValueError (msg : string)
| ValidationError (errors : list (string * error_type)).

Inductive result (A : Type) :=
| OK (a : A)
| Raise (e : exn).
Arguments OK {A} a.
Arguments Raise {A} e.

(** [str(e)].  [BookingAPIException.__init__] hands [message] to
    [Exception]; [UnknownTimeZoneError] is a [KeyError] and prints its key
    quoted. *)
Definition str (e : exn) : string :=
  match e with
  | ClassNotFoundException m _ => m
  | NoSlotsAvailableException m _ => m
  | InvalidBookingDataException m _ => m
  | DuplicateBookingException m _ => m
  | TypeError m => m
  | OverflowError m => m
  | UnknownTimeZoneError n => ("'" ++ n ++ "'")%string
  | IntegrityError m => m
  | OperationalError m => m
  | InvalidRequestError m => m
  | ValueError m => m
  | ValidationError errors =>
      (PyStr.of_int (Z.of_nat (List.length errors)) ++ " validation errors")%string
  end.

(** Ordering of two [datetime] values ([a < b]): instants are compared
    when both carry an offset, readings when neither does; a mixed pair is
    a [TypeError]. *)
Definition datetime_lt (a b : datetime) : result bool :=
  match tz a, tz b with
  | None, None => OK (wall a <? wall b)
  | Some oa, Some ob => OK (wall a - utcoffset oa <? wall b - utcoffset ob)
  | _, _ => Raise (TypeError "can't compare offset-naive and offset-aware datetimes")
  end.

(* ================================================================= *)
(** ** [app/config.py] *)

Module settings.
Definition DEFAULT_TIMEZONE : string := "Asia/Kolkata".
End settings.

(* ================================================================= *)
(** ** [app/utils/timezone_utils.py] *)

(** The zone database behind [pytz.timezone]. *)
Definition tz_database := string -> option tzinfo.

Definition pytz_timezone (zones : tz_database) (name : string) : result tzinfo :=
  match zones name with
  | Some z => OK z
  | None => Raise (UnknownTimeZoneError name)
  end.

Module TimezoneManager.

Record t := { default_tz : tzinfo }.

Definition __init__ (zones : tz_database) : result t :=
  match pytz_timezone zones settings.DEFAULT_TIMEZONE with
  | OK z => OK {| default_tz := z |}
  | Raise e => Raise e
  end.

Definition localize_datetime (zones : tz_database) (self : t)
    (dt : datetime) (timezone : option string) : result datetime :=
  let tzr := match timezone with
             | Some n => if PyStr.truthy n then pytz_timezone zones n
                         else OK (default_tz self)
             | None => OK (default_tz self)
             end in
  match tzr with
  | Raise e => Raise e
  | OK z =>
      match tz dt with
      | None => let '(w, o) := localize z (wall dt) in
                OK {| wall := w; tz := Some o |}
      | Some o => OK (astimezone (wall dt) o z)
      end
  end.

Definition convert_timezone (zones : tz_database) (self : t)
    (dt : datetime) (target_timezone : string) : result datetime :=
  (* If naive, assume it's in default timezone *)
  let '(w, o) := match tz dt with
                 | None => localize (default_tz self) (wall dt)
                 | Some o => (wall dt, o)
                 end in
  match pytz_timezone zones target_timezone with
  | Raise e => Raise e
  | OK target_tz => OK (astimezone w o target_tz)
  end.

Definition get_current_time (zones : tz_database) (self : t)
    (utcnow : Z) (timezone : option string) : result datetime :=
  let tzr := match timezone with
             | Some n => if PyStr.truthy n then pytz_timezone zones n
                         else OK (default_tz self)
             | None => OK (default_tz self)
             end in
  match tzr with
  | Raise e => Raise e
  | OK z => OK (PyTime.now z utcnow)
  end.

Definition get_one_day_aheadtime (zones : tz_database) (self : t)
    (utcnow : Z) (timezone : option string) : result datetime :=
  match get_current_time zones self utcnow timezone with
  | Raise e => Raise e
  | OK d => OK (add_days d 1)
  end.

End TimezoneManager.

(* ================================================================= *)
(** ** [app/models/booking.py] *)

Module FitnessClass.

Record t := {
  id : Z;
  name : string;
  description : option string;
  instructor : string;
  class_datetime : datetime;
  duration_minutes : Z;
  max_slots : Z;
  available_slots : Z;
  is_active : bool;
  created_at : datetime;
  updated_at : datetime
}.

(** The keyword arguments the constructor is given, before the row
    exists. *)
Record init := {
  init_name : string;
  init_description : option string;
  init_instructor : string;
  init_class_datetime : datetime;
  init_duration_minutes : Z;
  init_max_slots : Z;
  init_available_slots : Z
}.

Definition with_available_slots (v : Z) (self : t) : t :=
  {| id := id self; name := name self; description := description self;
     instructor := instructor self; class_datetime := class_datetime self;
     duration_minutes := duration_minutes self; max_slots := max_slots self;
     available_slots := v; is_active := is_active self;
     created_at := created_at self; updated_at := updated_at self |}.

Definition with_class_datetime (v : datetime) (self : t) : t :=
  {| id := id self; name := name self; description := description self;
     instructor := instructor self; class_datetime := v;
     duration_minutes := duration_minutes self; max_slots := max_slots self;
     available_slots := available_slots self; is_active := is_active self;
     created_at := created_at self; updated_at := updated_at self |}.

Definition with_updated_at (v : datetime) (self : t) : t :=
  {| id := id self; name := name self; description := description self;
     instructor := instructor self; class_datetime := class_datetime self;
     duration_minutes := duration_minutes self; max_slots := max_slots self;
     available_slots := available_slots self; is_active := is_active self;
     created_at := created_at self; updated_at := v |}.

Definition booked_slots (self : t) : Z := max_slots self - available_slots self.

Definition is_fully_booked (self : t) : bool := available_slots self <=? 0.

(** [self.class_datetime < datetime.now(tz=tz_manager.default_tz)] *)
Definition is_past (tz_manager : TimezoneManager.t) (utcnow : Z) (self : t)
  : result bool :=
  datetime_lt (class_datetime self)
              (PyTime.now (TimezoneManager.default_tz tz_manager) utcnow).

End FitnessClass.

Module Booking.

Record t := {
  id : Z;
  class_id : Z;
  client_name : string;
  client_email : string;
  booking_status : string;
  booking_reference : string;
  notes : option string;
  created_at : datetime;
  updated_at : datetime
}.

Record init := {
  init_class_id : Z;
  init_client_name : string;
  init_client_email : string;
  init_notes : option string;
  init_booking_reference : string;
  init_booking_status : string
}.

Definition is_active (self : t) : bool := (booking_status self =? "confirmed")%string.

End Booking.

(* ================================================================= *)
(** ** [app/schemas/booking.py] *)

Module BookingCreate.

(** The fields of a request body, and of a validated [BookingCreate]. *)
Record t := {
  class_id : Z;
  client_name : string;
  client_email : string;
  notes : option string
}.

Definition validate_client_name (v : string) : result string :=
  if negb (PyStr.truthy (PyStr.strip v))
  then Raise (ValueError "Client name cannot be empty")
  else OK (PyStr.title (PyStr.strip v)).

(** [class_id: int = Field(..., ge=1)] *)
Definition check_class_id (v : Z) : list (string * error_type) :=
  if 1 <=? v then [] else [("class_id", greater_than_equal)].

(** [client_name: str = Field(..., min_length=2, max_length=100)], then
    the validator: the length constraints see the text as it was sent. *)
Definition check_client_name (v : string) : list (string * error_type) * string :=
  if PyStr.len v <? 2 then ([("client_name", string_too_short)], v)
  else if 100 <? PyStr.len v then ([("client_name", string_too_long)], v)
  else match validate_client_name v with
       | OK v' => ([], v')
       | Raise e => ([("client_name", value_error (str e))], v)
       end.

(** [client_email: EmailStr]; the checker is the [email_validator]
    package, which hands back the address in normal form. *)
Definition check_client_email (email_validator : string -> option string)
    (v : string) : list (string * error_type) * string :=
  match email_validator v with
  | Some v' => ([], v')
  | None => ([("client_email", value_error "value is not a valid email address")], v)
  end.

(** [notes: Optional[str] = Field(None, max_length=500)] *)
Definition check_notes (v : option string) : list (string * error_type) :=
  match v with
  | Some n => if 500 <? PyStr.len n then [("notes", string_too_long)] else []
  | None => []
  end.

(** Building a [BookingCreate] from a request body: every field is
    checked, the errors are gathered, and one [ValidationError] is raised
    when there is any. *)
Definition validate (email_validator : string -> option string) (body : t)
  : result t :=
  let e1 := check_class_id (class_id body) in
  let '(e2, nm) := check_client_name (client_name body) in
  let '(e3, em) := check_client_email email_validator (client_email body) in
  let e4 := check_notes (notes body) in
  match (e1 ++ e2 ++ e3 ++ e4)%list with
  | [] => OK {| class_id := class_id body; client_name := nm;
                client_email := em; notes := notes body |}
  | errors => Raise (ValidationError errors)
  end.

End BookingCreate.

(* ================================================================= *)
(** ** The store and the SQLAlchemy session *)

(** The two tables, rows in insertion order.  A row holds the values the
    program reads back from it. *)
Record Database := {
  fitness_classes : list FitnessClass.t;
  bookings : list Booking.t
}.

Definition empty_database : Database := {| fitness_classes := []; bookings := [] |}.

(** [Column(DateTime)], without [timezone=True]: the store keeps the date
    and time fields of the value it is given and hands them back without
    offset. *)
Definition column_datetime (v : datetime) : datetime := naive (wall v).

(** The rows as the store hands them back: no [class_datetime] carries
    an offset. *)
Definition offset_free (db : Database) : Prop :=
  forall c, In c (fitness_classes db) -> tz (FitnessClass.class_datetime c) = None.

(** [Column(Integer)] on SQLite: a signed integer of 64 bits; the driver
    refuses to bind a Python integer outside that range. *)
Definition sqlite_integer (n : Z) : bool := (- 2 ^ 63 <=? n) && (n <? 2 ^ 63).

(** What a call reads from outside the program: the system clock (UTC,
    microseconds), the sixteen random bytes [uuid4] draws (as an integer),
    whether the store fails the commit or the refresh, with the text of
    the error it raises, and the text SQLAlchemy gives the error of a row
    that breaks a constraint (the driver's message, the statement and its
    parameters). *)
Record Env := {
  utcnow : Z;
  urandom : Z;
  commit_fault : option string;
  refresh_fault : option string;
  constraint_text : string
}.

(** [func.now()] as the store evaluates it: UTC to the second, no offset. *)
Definition func_now (env : Env) : datetime :=
  naive ((utcnow env / 1000000) * 1000000).

Inductive attribute := available_slots_attr | class_datetime_attr.

Definition attribute_eqb (a b : attribute) : bool :=
  match a, b with
  | available_slots_attr, available_slots_attr => true
  | class_datetime_attr, class_datetime_attr => true
  | _, _ => false
  end.

(** A session: the committed rows it works against, the [FitnessClass]
    objects it has loaded (one per primary key; each holds the attribute
    values the program sees and assigns), the attributes assigned since the
    last flush, and the objects added but not yet inserted. *)
Record Session := {
  committed : Database;
  identity_map : list FitnessClass.t;
  dirty : list (Z * attribute);
  new_classes : list FitnessClass.init;
  new_bookings : list Booking.init
}.

(** A session as a request receives it: each request gets one of its
    own, nothing loaded and nothing pending (see [override_get_db] in the
    tests). *)
Definition Session_open (db : Database) : Session :=
  {| committed := db; identity_map := []; dirty := [];
     new_classes := []; new_bookings := [] |}.

(** Computations in a session that may raise. *)
Definition M (A : Type) : Type := Session -> result A * Session.

Definition ret {A} (a : A) : M A := fun s => (OK a, s).

Definition raise {A} (e : exn) : M A := fun s => (Raise e, s).

Definition lift {A} (r : result A) : M A := fun s => (r, s).

Definition bind {A B} (m : M A) (k : A -> M B) : M B :=
  fun s => match m s with
           | (OK a, s') => k a s'
           | (Raise e, s') => (Raise e, s')
           end.

(** [try: body except ... as e: handler] *)
Definition try_except {A} (body : M A) (handler : exn -> M A) : M A :=
  fun s => match body s with
           | (OK a, s') => (OK a, s')
           | (Raise e, s') => handler e s'
           end.

Notation "x <- m ;; k" := (bind m (fun x => k))
  (at level 61, m at next level, right associativity).
Notation "m ;;; k" := (bind m (fun _ => k))
  (at level 61, right associativity).

Definition lookup_identity (i : Z) (objs : list FitnessClass.t) : option FitnessClass.t :=
  find (fun o => FitnessClass.id o =? i) objs.

(** A row that a query returns becomes the object of the identity map
    with that key: the one already loaded if there is one, else a new one
    holding the row's values. *)
Definition load (row : FitnessClass.t) : M FitnessClass.t :=
  fun s =>
    match lookup_identity (FitnessClass.id row) (identity_map s) with
    | Some o => (OK o, s)
    | None =>
        (OK row,
         {| committed := committed s;
            identity_map := (identity_map s ++ [row])%list;
            dirty := dirty s;
            new_classes := new_classes s; new_bookings := new_bookings s |})
    end.

Fixpoint load_all (rows : list FitnessClass.t) : M (list Z) :=
  match rows with
  | [] => ret []
  | row :: rest =>
      o <- load row ;;
      ids <- load_all rest ;;
      ret (FitnessClass.id o :: ids)
  end.

(** Reading through a reference to a loaded object. *)
Definition deref (i : Z) : M FitnessClass.t :=
  fun s =>
    match lookup_identity i (identity_map s) with
    | Some o => (OK o, s)
    | None => (Raise (InvalidRequestError "instance is not bound to this session"), s)
    end.

Fixpoint deref_all (ids : list Z) : M (list FitnessClass.t) :=
  match ids with
  | [] => ret []
  | i :: rest =>
      o <- deref i ;;
      os <- deref_all rest ;;
      ret (o :: os)
  end.

(** Assignment to an attribute of a loaded object. *)
Definition setattr (i : Z) (a : attribute) (update : FitnessClass.t -> FitnessClass.t)
  : M unit :=
  fun s =>
    (OK tt,
     {| committed := committed s;
        identity_map :=
          map (fun o => if FitnessClass.id o =? i then update o else o) (identity_map s);
        dirty := (dirty s ++ [(i, a)])%list;
        new_classes := new_classes s; new_bookings := new_bookings s |}).

(** [db.add(obj)] *)
Definition add_booking (b : Booking.init) : M unit :=
  fun s =>
    (OK tt,
     {| committed := committed s; identity_map := identity_map s; dirty := dirty s;
        new_classes := new_classes s;
        new_bookings := (new_bookings s ++ [b])%list |}).

Definition add_class (c : FitnessClass.init) : M unit :=
  fun s =>
    (OK tt,
     {| committed := committed s; identity_map := identity_map s; dirty := dirty s;
        new_classes := (new_classes s ++ [c])%list;
        new_bookings := new_bookings s |}).

(** [db.rollback()]: what was assigned or added and not committed is
    dropped, and every loaded object is expired. *)
Definition rollback : M unit := fun s => (OK tt, Session_open (committed s)).

(** The key an [INTEGER PRIMARY KEY] column gives a new row: one more
    than the largest key in the table. *)
Definition next_id (ids : list Z) : Z := 1 + fold_right Z.max 0 ids.

Definition is_dirty (s : Session) (i : Z) (a : attribute) : bool :=
  existsb (fun d => (fst d =? i) && attribute_eqb (snd d) a) (dirty s).

(** [UPDATE fitness_classes SET ... WHERE id = ?] for the assigned
    attributes of a loaded object; [updated_at] follows ([onupdate]). *)
Definition flush_row (s : Session) (now : datetime) (row : FitnessClass.t) : FitnessClass.t :=
  let i := FitnessClass.id row in
  match lookup_identity i (identity_map s) with
  | None => row
  | Some o =>
      let r1 := if is_dirty s i available_slots_attr
                then FitnessClass.with_available_slots (FitnessClass.available_slots o) row
                else row in
      let r2 := if is_dirty s i class_datetime_attr
                then FitnessClass.with_class_datetime
                       (column_datetime (FitnessClass.class_datetime o)) r1
                else r1 in
      if is_dirty s i available_slots_attr || is_dirty s i class_datetime_attr
      then FitnessClass.with_updated_at now r2
      else r2
  end.

(** [INSERT INTO fitness_classes]: [is_active] and the two timestamps take
    their defaults. *)
Definition insert_class (now : datetime) (rows : list FitnessClass.t)
    (c : FitnessClass.init) : list FitnessClass.t :=
  (rows ++
   [{| FitnessClass.id := next_id (map FitnessClass.id rows);
       FitnessClass.name := FitnessClass.init_name c;
       FitnessClass.description := FitnessClass.init_description c;
       FitnessClass.instructor := FitnessClass.init_instructor c;
       FitnessClass.class_datetime := column_datetime (FitnessClass.init_class_datetime c);
       FitnessClass.duration_minutes := FitnessClass.init_duration_minutes c;
       FitnessClass.max_slots := FitnessClass.init_max_slots c;
       FitnessClass.available_slots := FitnessClass.init_available_slots c;
       FitnessClass.is_active := true;
       FitnessClass.created_at := now;
       FitnessClass.updated_at := now |}])%list.

Definition booking_row (i : Z) (now : datetime) (b : Booking.init) : Booking.t :=
  {| Booking.id := i;
     Booking.class_id := Booking.init_class_id b;
     Booking.client_name := Booking.init_client_name b;
     Booking.client_email := Booking.init_client_email b;
     Booking.booking_status := Booking.init_booking_status b;
     Booking.booking_reference := Booking.init_booking_reference b;
     Booking.notes := Booking.init_notes b;
     Booking.created_at := now;
     Booking.updated_at := now |}.

(** [INSERT INTO bookings], one row after the other; [booking_reference]
    is declared [unique=True], and a reference already in the table makes
    the store refuse the row, with the error text [refusal]. *)
Fixpoint insert_bookings (refusal : string) (now : datetime) (rows : list Booking.t)
    (news : list Booking.init) : result (list Booking.t * list Booking.t) :=
  match news with
  | [] => OK (rows, [])
  | b :: rest =>
      if existsb (fun r => (Booking.booking_reference r =? Booking.init_booking_reference b)%string) rows
      then Raise (IntegrityError refusal)
      else
        let row := booking_row (next_id (map Booking.id rows)) now b in
        match insert_bookings refusal now (rows ++ [row])%list rest with
        | OK (rows', inserted) => OK (rows', row :: inserted)
        | Raise e => Raise e
        end
  end.

(** [db.commit()]: flush and commit in one transaction.  It hands back
    the booking rows it inserted (the objects added now have their keys).
    When it raises, nothing reaches the committed rows and the session
    keeps its pending state until [rollback]. *)
Definition commit (env : Env) : M (list Booking.t) :=
  fun s =>
    match commit_fault env with
    | Some msg => (Raise (OperationalError msg), s)
    | None =>
        let now := func_now env in
        let classes := fold_left (insert_class now) (new_classes s)
                         (map (flush_row s now) (fitness_classes (committed s))) in
        match insert_bookings (constraint_text env) now (bookings (committed s))
                (new_bookings s) with
        | Raise e => (Raise e, s)
        | OK (rows, inserted) =>
            (OK inserted,
             Session_open {| fitness_classes := classes; bookings := rows |})
        end
    end.

(** [db.refresh(obj)]: the row is read again by its key. *)
Definition refresh (env : Env) (i : Z) : M Booking.t :=
  fun s =>
    match refresh_fault env with
    | Some msg => (Raise (OperationalError msg), s)
    | None =>
        match find (fun r => Booking.id r =? i) (bookings (committed s)) with
        | Some row => (OK row, s)
        | None => (Raise (InvalidRequestError "Could not refresh instance"), s)
        end
    end.

(** The row of the object added last. *)
Definition last_inserted (inserted : list Booking.t) : option Booking.t :=
  nth_error inserted (List.length inserted - 1)%nat.

(** [ORDER BY]: a stable insertion sort on a key. *)
Fixpoint insert_by {A} (key : A -> Z) (x : A) (l : list A) : list A :=
  match l with
  | [] => [x]
  | y :: rest => if key y <=? key x then y :: insert_by key x rest else x :: l
  end.

Definition order_by {A} (key : A -> Z) (l : list A) : list A :=
  fold_left (fun acc x => insert_by key x acc) l [].

(* ================================================================= *)
(** ** [uuid.uuid4().hex] *)

(** [UUID(bytes=os.urandom(16), version=4).int]: the variant and version
    bits are forced. *)
Definition uuid4 (random : Z) : Z :=
  let i := random mod 2 ^ 128 in
  let i := Z.land i (Z.lnot (Z.shiftl 0xc000 48)) in
  let i := Z.lor i (Z.shiftl 0x8000 48) in
  let i := Z.land i (Z.lnot (Z.shiftl 0xf000 64)) in
  Z.lor i (Z.shiftl 4 76).

Definition hex_digit (d : Z) : ascii :=
  nth (Z.to_nat d) (list_ascii_of_string "0123456789abcdef") "0"%char.

(** The [n] lowest hexadecimal digits of [v], most significant first. *)
Fixpoint hex_digits (n : nat) (v : Z) : string :=
  match n with
  | O => EmptyString
  | S k => String (hex_digit ((v / 16 ^ Z.of_nat k) mod 16)) (hex_digits k v)
  end.

(** ['%032x' % self.int] *)
Definition hex (u : Z) : string := hex_digits 32 u.

(* ================================================================= *)
(** ** The [except] clauses of [POST /book] *)

(** The [detail] of the [HTTPException] that [create_http_exception]
    builds: what the caller receives. *)
Record HTTPException := {
  status_code : Z;
  detail_message : string;
  detail_details : details;
  detail_error_type : string
}.

Definition create_http_exception (status : Z) (message : string) (d : details)
  : HTTPException :=
  {| status_code := status; detail_message := message; detail_details := d;
     detail_error_type := "booking_api_error" |}.

(** The handlers that follow [service.create_booking(booking_data)] in the
    route, tried in the order they are written. *)
Definition create_booking_except (e : exn) : HTTPException :=
  match e with
  | ClassNotFoundException m d => create_http_exception 404 m d
  | NoSlotsAvailableException m d => create_http_exception 409 m d
  | DuplicateBookingException m d => create_http_exception 409 m d
  | InvalidBookingDataException m d => create_http_exception 400 m d
  | _ => create_http_exception 500 "Failed to create booking" []
  end.

(* ================================================================= *)
(** ** The response models of [app/schemas/booking.py] *)

(** [a <= b] on two [datetime] values; like [<], a mixed pair is a
    [TypeError]. *)
Definition datetime_le (a b : datetime) : result bool :=
  match tz a, tz b with
  | None, None => OK (wall a <=? wall b)
  | Some oa, Some ob => OK (wall a - utcoffset oa <=? wall b - utcoffset ob)
  | _, _ => Raise (TypeError "can't compare offset-naive and offset-aware datetimes")
  end.

(** The entries of the [ValidationError] of a response model: those of
    the request schema, and the two further kinds its fields can break
    ([le], and the [BookingStatus] enumeration). *)
Inductive response_error_type :=
| field_error (e : error_type)
| less_than_equal
| enum_error.

(** What building a pydantic model gives: the model, a
    [ValidationError], or an exception that is neither [ValueError] nor
    [AssertionError] raised by a validator, which leaves the constructor
    as it is (pydantic 2, whose [from_attributes] the models set). *)
Inductive built (A : Type) :=
| Built (a : A)
| Invalid (errors : list (string * response_error_type))
| Raised (e : exn).
Arguments Built {A} a.
Arguments Invalid {A} errors.
Arguments Raised {A} e.

(** [Field(..., min_length=lo, max_length=hi)] on a text. *)
Definition check_length (field : string) (lo hi : Z) (v : string)
  : list (string * response_error_type) :=
  if PyStr.len v <? lo then [(field, field_error string_too_short)]
  else if hi <? PyStr.len v then [(field, field_error string_too_long)]
  else [].

(** [Field(..., ge=lo, le=hi)] on an integer. *)
Definition check_range (field : string) (lo hi : Z) (v : Z)
  : list (string * response_error_type) :=
  if v <? lo then [(field, field_error greater_than_equal)]
  else if hi <? v then [(field, less_than_equal)]
  else [].

Definition check_optional_length (field : string) (hi : Z) (v : option string)
  : list (string * response_error_type) :=
  match v with
  | Some n => if hi <? PyStr.len n then [(field, field_error string_too_long)] else []
  | None => []
  end.

Module FitnessClassBase.

(** The validator of [class_datetime]; [datetime.now()] is the reading
    of the platform's local zone, without offset. *)
Definition validate_future_datetime (local : tzinfo) (utcnow : Z) (v : datetime)
  : result datetime :=
  match datetime_le v (now_naive local utcnow) with
  | Raise e => Raise e
  | OK true => Raise (ValueError "Class datetime must be in the future")
  | OK false => OK v
  end.

End FitnessClassBase.

Module FitnessClassResponse.

Record t := {
  id : Z;
  name : string;
  description : option string;
  instructor : string;
  class_datetime : datetime;
  duration_minutes : Z;
  max_slots : Z;
  available_slots : Z;
  booked_slots : Z;
  is_fully_booked : bool;
  is_active : bool;
  created_at : datetime
}.

(** The dictionary the routes build from a class object, the start
    being given apart (the routes of the bookings convert it). *)
Definition of_class (c : FitnessClass.t) (start : datetime) : t :=
  {| id := FitnessClass.id c;
     name := FitnessClass.name c;
     description := FitnessClass.description c;
     instructor := FitnessClass.instructor c;
     class_datetime := start;
     duration_minutes := FitnessClass.duration_minutes c;
     max_slots := FitnessClass.max_slots c;
     available_slots := FitnessClass.available_slots c;
     booked_slots := FitnessClass.booked_slots c;
     is_fully_booked := FitnessClass.is_fully_booked c;
     is_active := FitnessClass.is_active c;
     created_at := FitnessClass.created_at c |}.

(** The constraints of [FitnessClassBase], which the response model
    inherits with its validator. *)
Definition field_errors (d : t) : list (string * response_error_type) :=
  (check_length "name" 2 100 (name d)
   ++ check_optional_length "description" 500 (description d)
   ++ check_length "instructor" 2 100 (instructor d))%list.

Definition later_field_errors (d : t) : list (string * response_error_type) :=
  (check_range "duration_minutes" 15 180 (duration_minutes d)
   ++ check_range "max_slots" 1 50 (max_slots d))%list.

(** The constructor of [FitnessClassResponse], called on the dictionary. *)
Definition init (local : tzinfo) (utcnow : Z) (d : t) : built t :=
  match FitnessClassBase.validate_future_datetime local utcnow (class_datetime d) with
  | Raise (ValueError m) =>
      Invalid (field_errors d ++ [("class_datetime", field_error (value_error m))]
               ++ later_field_errors d)
  | Raise e => Raised e
  | OK _ =>
      match (field_errors d ++ later_field_errors d)%list with
      | [] => Built d
      | errors => Invalid errors
      end
  end.

End FitnessClassResponse.

Module BookingResponse.

Record t := {
  id : Z;
  class_id : Z;
  client_name : string;
  client_email : string;
  notes : option string;
  booking_reference : string;
  booking_status : string;
  created_at : datetime;
  fitness_class : FitnessClassResponse.t
}.

(** The dictionary the routes build from a booking and its class. *)
Definition of_booking (b : Booking.t) (c : FitnessClassResponse.t) : t :=
  {| id := Booking.id b;
     class_id := Booking.class_id b;
     client_name := Booking.client_name b;
     client_email := Booking.client_email b;
     notes := Booking.notes b;
     booking_reference := Booking.booking_reference b;
     booking_status := Booking.booking_status b;
     created_at := Booking.created_at b;
     fitness_class := c |}.

(** The constraints of [BookingBase] (its validator belongs to
    [BookingCreate] and is not inherited here) and the enumeration of
    [booking_status]. *)
Definition field_errors (email_validator : string -> option string) (d : t)
  : list (string * response_error_type) * string :=
  let e1 := if 1 <=? class_id d then [] else [("class_id", field_error greater_than_equal)] in
  let e2 := check_length "client_name" 2 100 (client_name d) in
  let '(e3, em) :=
    match email_validator (client_email d) with
    | Some v => ([], v)
    | None => ([("client_email",
                 field_error (value_error "value is not a valid email address"))],
               client_email d)
    end in
  let e4 := check_optional_length "notes" 500 (notes d) in
  let e5 := if ((booking_status d =? "confirmed") || (booking_status d =? "cancelled"))%string
            then [] else [("booking_status", enum_error)] in
  ((e1 ++ e2 ++ e3 ++ e4 ++ e5)%list, em).

(** The constructor of [BookingResponse], called on the dictionary. *)
Definition init (email_validator : string -> option string)
    (local : tzinfo) (utcnow : Z) (d : t) : built t :=
  let '(errors, em) := field_errors email_validator d in
  match FitnessClassResponse.init local utcnow (fitness_class d) with
  | Raised e => Raised e
  | Invalid nested =>
      Invalid (errors ++ map (fun e => (("fitness_class." ++ fst e)%string, snd e)) nested)
  | Built c =>
      match errors with
      | [] => Built {| id := id d; class_id := class_id d;
                       client_name := client_name d; client_email := em;
                       notes := notes d; booking_reference := booking_reference d;
                       booking_status := booking_status d; created_at := created_at d;
                       fitness_class := c |}
      | _ => Invalid errors
      end
  end.

End BookingResponse.

(** [BookingListResponse] *)
Record BookingListResponse := {
  list_bookings : list BookingResponse.t;
  total_count : Z;
  list_client_email : string
}.

(** No blank at the start of a text. *)
Definition starts_clean (s : string) : Prop :=
  match s with
  | String c _ => PyStr.isspace c = false
  | EmptyString => True
  end.

(* ================================================================= *)
(** ** A small installation, for the examples *)

Module Demo.

(** India has kept UTC+05:30 without change since 1945. *)
Definition ist : tzinfo :=
  {| zone := "Asia/Kolkata";
     utcoffset_at_utc := fun _ => 19800000000;
     utcoffset_at_wall := fun _ => 19800000000 |}.

Definition utc : tzinfo :=
  {| zone := "UTC"; utcoffset_at_utc := fun _ => 0; utcoffset_at_wall := fun _ => 0 |}.

Definition zones : tz_database :=
  fun n => if (n =? "Asia/Kolkata")%string then Some ist
           else if (n =? "UTC")%string then Some utc
           else None.

Definition tz_manager : TimezoneManager.t := {| TimezoneManager.default_tz := ist |}.

(** 2030-01-01 00:00:00 UTC, that is 05:30 in India. *)
Definition t0 : Z := 1893456000000000.

Definition at_ist (w : Z) : datetime :=
  {| wall := w; tz := Some {| tzname := "Asia/Kolkata"; utcoffset := 19800000000 |} |}.

(** The text of a refused row, as SQLAlchemy words it. *)
Definition refused_row : string :=
  "(sqlite3.IntegrityError) UNIQUE constraint failed: bookings.booking_reference [SQL: INSERT INTO bookings (class_id, client_name, client_email, booking_status, booking_reference, notes) VALUES (?, ?, ?, ?, ?, ?)]".

Definition env_at (clock random : Z) : Env :=
  {| utcnow := clock; urandom := random; commit_fault := None; refresh_fault := None;
     constraint_text := refused_row |}.

Definition a_class (i : Z) (start : datetime) (max_ avail : Z) (active : bool)
  : FitnessClass.t :=
  {| FitnessClass.id := i; FitnessClass.name := "Test Yoga";
     FitnessClass.description := Some "Test yoga class";
     FitnessClass.instructor := "Test Instructor";
     FitnessClass.class_datetime := start;
     FitnessClass.duration_minutes := 60;
     FitnessClass.max_slots := max_; FitnessClass.available_slots := avail;
     FitnessClass.is_active := active;
     FitnessClass.created_at := naive t0; FitnessClass.updated_at := naive t0 |}.

Definition a_booking (i cls : Z) (email status reference : string) : Booking.t :=
  {| Booking.id := i; Booking.class_id := cls; Booking.client_name := "John Doe";
     Booking.client_email := email; Booking.booking_status := status;
     Booking.booking_reference := reference; Booking.notes := None;
     Booking.created_at := naive t0; Booking.updated_at := naive t0 |}.

Definition john (cls : Z) : BookingCreate.t :=
  {| BookingCreate.class_id := cls; BookingCreate.client_name := "John Doe";
     BookingCreate.client_email := "john.doe@example.com";
     BookingCreate.notes := Some "First time booking" |}.

Definition jane (cls : Z) : BookingCreate.t :=
  {| BookingCreate.class_id := cls; BookingCreate.client_name := "Jane Doe";
     BookingCreate.client_email := "jane.doe@example.com";
     BookingCreate.notes := None |}.

(** The [i]-th of a series of clients, and a draw of [uuid4] that gives
    that client a reference of its own. *)
Definition client (i cls : Z) : BookingCreate.t :=
  {| BookingCreate.class_id := cls; BookingCreate.client_name := "Client";
     BookingCreate.client_email := ("client" ++ PyStr.of_int i ++ "@example.com")%string;
     BookingCreate.notes := None |}.

Definition draw (i : Z) : Z := i * 2 ^ 96.

(** A store holding one class, of key 1, and no booking. *)
Definition one_class (start : datetime) (max_ avail : Z) : Database :=
  {| fitness_classes := [a_class 1 start max_ avail true]; bookings := [] |}.

Definition failing_commit (clock random : Z) (cause : string) : Env :=
  {| utcnow := clock; urandom := random; commit_fault := Some cause;
     refresh_fault := None; constraint_text := refused_row |}.

(** An address is taken as valid here when it has an [@]. *)
Definition email_validator (v : string) : option string :=
  if existsb (fun c => Ascii.eqb c "@"%char) (list_ascii_of_string v)
  then Some v else None.

End Demo.

(* ================================================================= *)
(** ** [app/services/booking.py] *)

Section BookingService.

Variable zones : tz_database.
Variable tz_manager : TimezoneManager.t.

(** The loop of [get_all_classes]: each object of the result is read,
    converted and assigned in turn. *)
Fixpoint convert_each (classes : list Z) (timezone : string) : M unit :=
  match classes with
  | [] => ret tt
  | i :: rest =>
      fitness_class <- deref i ;;
      dt <- lift (TimezoneManager.convert_timezone zones tz_manager
                    (FitnessClass.class_datetime fitness_class) timezone) ;;
      setattr i class_datetime_attr (FitnessClass.with_class_datetime dt) ;;;
      convert_each rest timezone
  end.

(** The [WHERE] and [ORDER BY] clauses are evaluated by the store, which
    compares the date and time fields it holds with those of the bound
    value. *)
Definition get_all_classes (timezone : option string) (env : Env)
  : M (list FitnessClass.t) :=
  try_except
    (current_time <- lift (TimezoneManager.get_current_time zones tz_manager
                             (utcnow env) None) ;;
     rows <- (fun s =>
       (OK (order_by (fun c => wall (FitnessClass.class_datetime c))
              (filter (fun c => FitnessClass.is_active c &&
                                (wall current_time <? wall (FitnessClass.class_datetime c)))
                      (fitness_classes (committed s)))), s)) ;;
     classes <- load_all rows ;;
     (* Convert timezone if requested *)
     match timezone with
     | Some tzname =>
         if PyStr.truthy tzname && negb (Nat.eqb (List.length classes) 0)
         then convert_each classes tzname
         else ret tt
     | None => ret tt
     end ;;;
     deref_all classes)
    (fun e => raise e).

(** The query of [get_class_by_id]:
    [filter(FitnessClass.id == class_id, FitnessClass.is_active == True).first()] *)
Definition active_class (db : Database) (class_id : Z) : option FitnessClass.t :=
  find (fun c => (FitnessClass.id c =? class_id) && FitnessClass.is_active c)
       (fitness_classes db).

(** The filter of the duplicate check, and its query:
    [filter(and_(Booking.class_id == ..., Booking.client_email == ...,
    Booking.booking_status == "confirmed")).first()] *)
Definition confirmed_for (class_id : Z) (email : string) (b : Booking.t) : bool :=
  (Booking.class_id b =? class_id)
  && (Booking.client_email b =? email)%string
  && (Booking.booking_status b =? "confirmed")%string.

Definition confirmed_booking (db : Database) (class_id : Z) (email : string)
  : option Booking.t :=
  find (confirmed_for class_id email) (bookings db).

#[local] Arguments active_class : simpl never.
#[local] Arguments confirmed_booking : simpl never.

Definition get_class_by_id (class_id : Z) : M FitnessClass.t :=
  fun s =>
    if negb (sqlite_integer class_id)
    then (Raise (OverflowError "Python int too large to convert to SQLite INTEGER"), s)
    else
    match active_class (committed s) class_id with
    | Some row => load row s
    | None =>
        (Raise (ClassNotFoundException
                  ("Class with ID " ++ PyStr.of_int class_id ++ " not found or inactive")%string
                  [("class_id", VInt class_id)]), s)
    end.

Definition _generate_booking_reference (env : Env) : string :=
  ("FB" ++ PyStr.upper (substring 0 8 (hex (uuid4 (urandom env)))))%string.

Definition existing_booking (booking_data : BookingCreate.t) : M (option Booking.t) :=
  fun s =>
    (OK (confirmed_booking (committed s) (BookingCreate.class_id booking_data)
           (BookingCreate.client_email booking_data)), s).

Definition is_domain_error (e : exn) : bool :=
  match e with
  | ClassNotFoundException _ _ | NoSlotsAvailableException _ _
  | DuplicateBookingException _ _ | InvalidBookingDataException _ _ => true
  | _ => false
  end.

(** The [try] block of [create_booking]. *)
Definition create_booking_body (booking_data : BookingCreate.t) (env : Env) : M Booking.t :=
    ((* Get the fitness class *)
     fitness_class <- get_class_by_id (BookingCreate.class_id booking_data) ;;
     (* Check if class is in the past *)
     past <- lift (FitnessClass.is_past tz_manager (utcnow env) fitness_class) ;;
     if past : bool then
       raise (InvalidBookingDataException
                "Cannot book a class that has already occurred"
                [("class_datetime", VDatetime (FitnessClass.class_datetime fitness_class))])
     else
     (* Check available slots *)
     if FitnessClass.available_slots fitness_class <=? 0 then
       raise (NoSlotsAvailableException
                ("No available slots for class '" ++ FitnessClass.name fitness_class ++ "'")%string
                [("class_id", VInt (BookingCreate.class_id booking_data));
                 ("available_slots", VInt (FitnessClass.available_slots fitness_class))])
     else
     (* Check for duplicate booking *)
     existing <- existing_booking booking_data ;;
     match existing with
     | Some b =>
         raise (DuplicateBookingException
                  ("Client " ++ BookingCreate.client_email booking_data
                   ++ " already has a booking for this class")%string
                  [("existing_booking_id", VInt (Booking.id b))])
     | None =>
         (* Create booking *)
         let booking_reference := _generate_booking_reference env in
         let new_booking :=
           {| Booking.init_class_id := BookingCreate.class_id booking_data;
              Booking.init_client_name := BookingCreate.client_name booking_data;
              Booking.init_client_email := BookingCreate.client_email booking_data;
              Booking.init_notes := BookingCreate.notes booking_data;
              Booking.init_booking_reference := booking_reference;
              Booking.init_booking_status := "confirmed" |} in
         (* Reduce available slots *)
         setattr (FitnessClass.id fitness_class) available_slots_attr
           (FitnessClass.with_available_slots
              (FitnessClass.available_slots fitness_class - 1)) ;;;
         (* Add to database *)
         add_booking new_booking ;;;
         inserted <- commit env ;;
         match last_inserted inserted with
         | Some row => refresh env (Booking.id row)
         | None => raise (InvalidRequestError "Could not refresh instance")
         end
     end).

Definition create_booking (booking_data : BookingCreate.t) (env : Env) : M Booking.t :=
  try_except
    (create_booking_body booking_data env)
    (fun e =>
       rollback ;;;
       if is_domain_error e then raise e
       else raise (InvalidBookingDataException
                     ("Failed to create booking: " ++ str e)%string []))%string.

Definition get_bookings_by_email (client_email : string) : M (list Booking.t) :=
  try_except
    (fun s =>
       (OK (order_by (fun b => - wall (Booking.created_at b))
              (filter (fun b => (Booking.client_email b =? client_email)%string)
                      (bookings (committed s)))), s))
    (fun e => raise e).

Definition sample_classes (now : datetime) : list FitnessClass.init :=
  [ {| FitnessClass.init_name := "Morning Yoga";
       FitnessClass.init_description := Some "Start your day with peaceful yoga practice";
       FitnessClass.init_instructor := "Sarah Johnson";
       FitnessClass.init_class_datetime := replace_time now 8 0;
       FitnessClass.init_duration_minutes := 60;
       FitnessClass.init_max_slots := 15;
       FitnessClass.init_available_slots := 15 |};
    {| FitnessClass.init_name := "High Energy Zumba";
       FitnessClass.init_description := Some "Dance your way to fitness with energetic Zumba";
       FitnessClass.init_instructor := "Carlos Rodriguez";
       FitnessClass.init_class_datetime := replace_time now 18 30;
       FitnessClass.init_duration_minutes := 45;
       FitnessClass.init_max_slots := 20;
       FitnessClass.init_available_slots := 20 |};
    {| FitnessClass.init_name := "HIIT Intensive";
       FitnessClass.init_description := Some "High-intensity interval training for maximum results";
       FitnessClass.init_instructor := "Mike Thompson";
       FitnessClass.init_class_datetime := replace_time now 19 0;
       FitnessClass.init_duration_minutes := 30;
       FitnessClass.init_max_slots := 12;
       FitnessClass.init_available_slots := 12 |} ].

Fixpoint add_classes (l : list FitnessClass.init) : M unit :=
  match l with
  | [] => ret tt
  | c :: rest => add_class c ;;; add_classes rest
  end.

Definition create_sample_classes (env : Env) : M unit :=
  try_except
    (fun s =>
       (* Check if classes already exist *)
       if 0 <? Z.of_nat (List.length (fitness_classes (committed s)))
       then (OK tt, s)
       else
         (now <- lift (TimezoneManager.get_current_time zones tz_manager
                         (utcnow env) None) ;;
          add_classes (sample_classes now) ;;;
          commit env ;;;
          ret tt) s)
    (fun e => rollback ;;; raise e).

(* --------------------------------------------------------------- *)
(** *** The application as a transition system *)

(** One call of the service, on a session of its own. *)
Inductive request :=
| CreateSampleClasses
| CreateBooking (booking_data : BookingCreate.t)
| GetAllClasses (timezone : option string)
| GetBookingsByEmail (client_email : string).

(** The committed rows once the call is over and its session closed. *)
Definition serve (db : Database) (r : request) (env : Env) : Database :=
  match r with
  | CreateSampleClasses => committed (snd (create_sample_classes env (Session_open db)))
  | CreateBooking d => committed (snd (create_booking d env (Session_open db)))
  | GetAllClasses tzname => committed (snd (get_all_classes tzname env (Session_open db)))
  | GetBookingsByEmail e => committed (snd (get_bookings_by_email e (Session_open db)))
  end.

(** A sequence of calls, each with what it reads from outside. *)
Definition run (db : Database) (calls : list (request * Env)) : Database :=
  fold_left (fun db call => serve db (fst call) (snd call)) calls db.

Inductive reachable : Database -> Prop :=
| reachable_start : reachable empty_database
| reachable_serve : forall db r env,
    reachable db -> reachable (serve db r env).

(* --------------------------------------------------------------- *)
(** *** What the properties speak of *)

Definition reference_taken (db : Database) (reference : string) : bool :=
  existsb (fun r => (Booking.booking_reference r =? reference)%string) (bookings db).

(** The class row after a booking on the class [c]. *)
Definition book_slot (c : FitnessClass.t) (now : datetime) (row : FitnessClass.t)
  : FitnessClass.t :=
  if FitnessClass.id row =? FitnessClass.id c
  then FitnessClass.with_updated_at now
         (FitnessClass.with_available_slots (FitnessClass.available_slots c - 1) row)
  else row.

(** The booking row a successful call inserts. *)
Definition booked_row (db : Database) (booking_data : BookingCreate.t) (env : Env)
  : Booking.t :=
  booking_row (next_id (map Booking.id (bookings db))) (func_now env)
    {| Booking.init_class_id := BookingCreate.class_id booking_data;
       Booking.init_client_name := BookingCreate.client_name booking_data;
       Booking.init_client_email := BookingCreate.client_email booking_data;
       Booking.init_notes := BookingCreate.notes booking_data;
       Booking.init_booking_reference := _generate_booking_reference env;
       Booking.init_booking_status := "confirmed" |}.

(** The committed rows after a successful call on the class [c]. *)
Definition booked (db : Database) (c : FitnessClass.t)
    (booking_data : BookingCreate.t) (env : Env) : Database :=
  {| fitness_classes := map (book_slot c (func_now env)) (fitness_classes db);
     bookings := (bookings db ++ [booked_row db booking_data env])%list |}.

(** The session at the moment [create_booking] commits. *)
Definition about_to_commit (db : Database) (c : FitnessClass.t)
    (booking_data : BookingCreate.t) (env : Env) : Session :=
  {| committed := db;
     identity_map :=
       [FitnessClass.with_available_slots (FitnessClass.available_slots c - 1) c];
     dirty := [(FitnessClass.id c, available_slots_attr)];
     new_classes := [];
     new_bookings :=
       [{| Booking.init_class_id := BookingCreate.class_id booking_data;
           Booking.init_client_name := BookingCreate.client_name booking_data;
           Booking.init_client_email := BookingCreate.client_email booking_data;
           Booking.init_notes := BookingCreate.notes booking_data;
           Booking.init_booking_reference := _generate_booking_reference env;
           Booking.init_booking_status := "confirmed" |}] |}.

(** A computation that writes nothing to the committed rows. *)
Definition keeps_committed {A} (m : M A) : Prop :=
  forall s, committed (snd (m s)) = committed s.

(** The rows [create_sample_classes] inserts into an empty table. *)
Definition seeded (env : Env) : list FitnessClass.t :=
  fold_left (insert_class (func_now env))
    (sample_classes (PyTime.now (TimezoneManager.default_tz tz_manager) (utcnow env)))
    [].

(** The reference format: [FB] and eight characters among [0-9A-F]. *)
Definition is_upper_hex (c : ascii) : bool :=
  let n := PyStr.code c in
  ((48 <=? n) && (n <=? 57)) || ((65 <=? n) && (n <=? 70)).

Definition is_lower_hex (c : ascii) : bool :=
  let n := PyStr.code c in
  ((48 <=? n) && (n <=? 57)) || ((97 <=? n) && (n <=? 102)).

Definition reference_format (s : string) : bool :=
  match s with
  | String "F" (String "B" rest) =>
      Nat.eqb (String.length rest) 8 && forallb is_upper_hex (list_ascii_of_string rest)
  | _ => false
  end.

(** Capacity bookkeeping of one class, and of the whole table. *)
Definition slots_ok (c : FitnessClass.t) : Prop :=
  0 <= FitnessClass.available_slots c <= FitnessClass.max_slots c
  /\ FitnessClass.available_slots c + FitnessClass.booked_slots c = FitnessClass.max_slots c.

Definition slots_invariant (db : Database) : Prop :=
  forall c, In c (fitness_classes db) -> slots_ok c.

(** [id] is the primary key of [fitness_classes]. *)
Definition primary_key (db : Database) : Prop :=
  NoDup (map FitnessClass.id (fitness_classes db)).

Definition at_most_one_confirmed (db : Database) : Prop :=
  forall class_id email,
    (List.length (filter (confirmed_for class_id email) (bookings db)) <= 1)%nat.

(** The three together. *)
Definition consistent (db : Database) : Prop :=
  primary_key db /\ slots_invariant db /\ at_most_one_confirmed db.

(** The order of the checks as the specification words it.  The start
    of a class is an instant; a stored reading without offset is read in
    the reference timezone, as [convert_timezone] reads it. *)
Inductive check := existence | timing | capacity | duplicate.

Definition instant (dt : datetime) : Z :=
  match tz dt with
  | Some o => wall dt - utcoffset o
  | None => wall dt
            - utcoffset_at_wall (TimezoneManager.default_tz tz_manager) (wall dt)
  end.

Definition spec_first_failing_check (db : Database) (booking_data : BookingCreate.t)
    (env : Env) : option check :=
  match active_class db (BookingCreate.class_id booking_data) with
  | None => Some existence
  | Some c =>
      if instant (FitnessClass.class_datetime c) <? utcnow env then Some timing
      else if FitnessClass.available_slots c <=? 0 then Some capacity
      else match confirmed_booking db (BookingCreate.class_id booking_data)
                   (BookingCreate.client_email booking_data) with
           | Some _ => Some duplicate
           | None => None
           end
  end.

(** The error the specification attaches to each check. *)
Definition reports (ch : check) (e : exn) : bool :=
  match ch, e with
  | existence, ClassNotFoundException _ _ => true
  | timing, InvalidBookingDataException _ _ => true
  | capacity, NoSlotsAvailableException _ _ => true
  | duplicate, DuplicateBookingException _ _ => true
  | _, _ => false
  end.

(* --------------------------------------------------------------- *)
(** *** What the further properties speak of *)

(** Ascending in the key. *)
Definition ascending {A} (key : A -> Z) (l : list A) : Prop :=
  StronglySorted (fun a b => key a <= key b) l.

(** The filter of [get_all_classes], and the rows its query returns. *)
Definition upcoming (current_time : datetime) (c : FitnessClass.t) : bool :=
  FitnessClass.is_active c && (wall current_time <? wall (FitnessClass.class_datetime c)).

Definition upcoming_classes (db : Database) (env : Env) : list FitnessClass.t :=
  order_by (fun c => wall (FitnessClass.class_datetime c))
    (filter (upcoming (PyTime.now (TimezoneManager.default_tz tz_manager) (utcnow env)))
            (fitness_classes db)).

(** A session that has loaded the rows [objs] and assigned the attributes
    [assigned], with nothing added. *)
Definition loaded (db : Database) (objs : list FitnessClass.t)
    (assigned : list (Z * attribute)) : Session :=
  {| committed := db; identity_map := objs; dirty := assigned;
     new_classes := []; new_bookings := [] |}.

(** The object of a listed class once its start is converted to the
    zone [z]. *)
Definition shown_in (z : tzinfo) (c : FitnessClass.t) : FitnessClass.t :=
  FitnessClass.with_class_datetime (fromutc z (instant (FitnessClass.class_datetime c))) c.

(* --------------------------------------------------------------- *)
(** *** [app/api/v1/routes/booking.py] *)

(** The zone of the platform, which [datetime.now()] reads, and the
    checker behind [EmailStr]. *)
Variable local_tz : tzinfo.
Variable email_validator : string -> option string.

(** The loop of [get_classes]: one [FitnessClassResponse] per class, the
    first constructor that raises ending the loop. *)
Fixpoint class_responses (env : Env) (classes : list FitnessClass.t)
  : built (list FitnessClassResponse.t) :=
  match classes with
  | [] => Built []
  | c :: rest =>
      match FitnessClassResponse.init local_tz (utcnow env)
              (FitnessClassResponse.of_class c (FitnessClass.class_datetime c)) with
      | Built r =>
          match class_responses env rest with
          | Built rs => Built (r :: rs)
          | Invalid errors => Invalid errors
          | Raised e => Raised e
          end
      | Invalid errors => Invalid errors
      | Raised e => Raised e
      end
  end.

(** [GET /classes]: the answer (the list, or the [HTTPException] of the
    catch-all handler) and the committed rows once the session is closed.
    The query parameter always holds a text, ["Asia/Kolkata"] when the
    caller sends none. *)
Definition get_classes (timezone : string) (env : Env) (db : Database)
  : (HTTPException + list FitnessClassResponse.t) * Database :=
  let failed := create_http_exception 500 "Failed to retrieve classes" [] in
  match get_all_classes (Some timezone) env (Session_open db) with
  | (Raise _, s) => (inl failed, committed s)
  | (OK classes, s) =>
      match class_responses env classes with
      | Built rs => (inr rs, committed s)
      | _ => (inl failed, committed s)
      end
  end.

(** The dictionary and the [BookingResponse] the two booking routes build
    for one booking; [None] when building it raises: the booking has no
    class to read through ([booking.fitness_class] is [None]), the
    conversion of the start raises, or the constructor does. *)
Definition booking_response (env : Env) (db : Database) (b : Booking.t)
  : option BookingResponse.t :=
  match find (fun c => FitnessClass.id c =? Booking.class_id b) (fitness_classes db) with
  | None => None
  | Some fc =>
      match TimezoneManager.convert_timezone zones tz_manager
              (FitnessClass.class_datetime fc) settings.DEFAULT_TIMEZONE with
      | Raise _ => None
      | OK start =>
          match BookingResponse.init email_validator local_tz (utcnow env)
                  (BookingResponse.of_booking b (FitnessClassResponse.of_class fc start)) with
          | Built r => Some r
          | _ => None
          end
      end
  end.

(** [POST /book], once the body has been validated. *)
Definition create_booking_route (booking_data : BookingCreate.t) (env : Env)
    (db : Database) : (HTTPException + BookingResponse.t) * Database :=
  match create_booking booking_data env (Session_open db) with
  | (Raise e, s) => (inl (create_booking_except e), committed s)
  | (OK booking, s) =>
      match booking_response env (committed s) booking with
      | Some r => (inr r, committed s)
      | None => (inl (create_http_exception 500 "Failed to create booking" []), committed s)
      end
  end.

Fixpoint booking_responses (env : Env) (db : Database) (l : list Booking.t)
  : option (list BookingResponse.t) :=
  match l with
  | [] => Some []
  | b :: rest =>
      match booking_response env db b with
      | None => None
      | Some r =>
          match booking_responses env db rest with
          | Some rs => Some (r :: rs)
          | None => None
          end
      end
  end.

(** [GET /bookings?client_email=...] *)
Definition get_bookings (client_email : string) (env : Env) (db : Database)
  : (HTTPException + BookingListResponse) * Database :=
  let failed := create_http_exception 500 "Failed to retrieve bookings" [] in
  match get_bookings_by_email client_email (Session_open db) with
  | (Raise _, s) => (inl failed, committed s)
  | (OK found, s) =>
      match booking_responses env (committed s) found with
      | Some rs =>
          (inr {| list_bookings := rs;
                  total_count := Z.of_nat (List.length rs);
                  list_client_email := client_email |}, committed s)
      | None => (inl failed, committed s)
      end
  end.

(* --------------------------------------------------------------- *)
(** *** How a call on a fresh session runs *)

#[local] Arguments _generate_booking_reference : simpl never.
#[local] Arguments next_id : simpl never.
#[local] Arguments func_now : simpl never.

Lemma load_fresh (db : Database) (row : FitnessClass.t) :
  load row (Session_open db) =
  (OK row, {| committed := db; identity_map := [row]; dirty := [];
              new_classes := []; new_bookings := [] |}).
Proof. reflexivity. Qed.

Lemma is_past_raises (c : FitnessClass.t) (clock : Z) (e : exn) :
  FitnessClass.is_past tz_manager clock c = Raise e ->
  tz (FitnessClass.class_datetime c) = None
  /\ e = TypeError "can't compare offset-naive and offset-aware datetimes".
Proof.
  unfold FitnessClass.is_past, datetime_lt. simpl.
  destruct (tz (FitnessClass.class_datetime c)); intros H; inversion H; auto.
Qed.

Lemma create_booking_overflow db booking_data env :
  sqlite_integer (BookingCreate.class_id booking_data) = false ->
  create_booking booking_data env (Session_open db) =
  (Raise (InvalidBookingDataException
            "Failed to create booking: Python int too large to convert to SQLite INTEGER" []),
   Session_open db).
Proof.
  intros H.
  unfold create_booking, create_booking_body, try_except, bind, get_class_by_id.
  rewrite H. reflexivity.
Qed.

Lemma create_booking_class_not_found db booking_data env :
  sqlite_integer (BookingCreate.class_id booking_data) = true ->
  active_class db (BookingCreate.class_id booking_data) = None ->
  create_booking booking_data env (Session_open db) =
  (Raise (ClassNotFoundException
            ("Class with ID " ++ PyStr.of_int (BookingCreate.class_id booking_data)
             ++ " not found or inactive")%string
            [("class_id", VInt (BookingCreate.class_id booking_data))]),
   Session_open db).
Proof.
  intros Hi H.
  unfold create_booking, create_booking_body, try_except, bind, get_class_by_id.
  rewrite Hi. simpl. rewrite H. reflexivity.
Qed.

Ltac run_create_booking Hi :=
  unfold create_booking, create_booking_body, try_except, bind, get_class_by_id, lift, raise,
         existing_booking, rollback; rewrite Hi; cbn.

Lemma create_booking_timing_raises db booking_data env c e :
  sqlite_integer (BookingCreate.class_id booking_data) = true ->
  active_class db (BookingCreate.class_id booking_data) = Some c ->
  FitnessClass.is_past tz_manager (utcnow env) c = Raise e ->
  create_booking booking_data env (Session_open db) =
  (Raise (InvalidBookingDataException
            ("Failed to create booking: " ++ str e)%string []),
   Session_open db).
Proof.
  intros Hi Hc Hp.
  destruct (is_past_raises _ _ _ Hp) as [_ ->].
  run_create_booking Hi. rewrite Hc. cbn. rewrite Hp. reflexivity.
Qed.

Lemma create_booking_past db booking_data env c :
  sqlite_integer (BookingCreate.class_id booking_data) = true ->
  active_class db (BookingCreate.class_id booking_data) = Some c ->
  FitnessClass.is_past tz_manager (utcnow env) c = OK true ->
  create_booking booking_data env (Session_open db) =
  (Raise (InvalidBookingDataException
            "Cannot book a class that has already occurred"
            [("class_datetime", VDatetime (FitnessClass.class_datetime c))]),
   Session_open db).
Proof.
  intros Hi Hc Hp.
  run_create_booking Hi. rewrite Hc. cbn. rewrite Hp. reflexivity.
Qed.

Lemma create_booking_no_slots db booking_data env c :
  sqlite_integer (BookingCreate.class_id booking_data) = true ->
  active_class db (BookingCreate.class_id booking_data) = Some c ->
  FitnessClass.is_past tz_manager (utcnow env) c = OK false ->
  FitnessClass.available_slots c <= 0 ->
  create_booking booking_data env (Session_open db) =
  (Raise (NoSlotsAvailableException
            ("No available slots for class '" ++ FitnessClass.name c ++ "'")%string
            [("class_id", VInt (BookingCreate.class_id booking_data));
             ("available_slots", VInt (FitnessClass.available_slots c))]),
   Session_open db).
Proof.
  intros Hi Hc Hp Hs.
  apply Z.leb_le in Hs.
  run_create_booking Hi. rewrite Hc. cbn. rewrite Hp, Hs. reflexivity.
Qed.

Lemma create_booking_duplicate db booking_data env c b :
  sqlite_integer (BookingCreate.class_id booking_data) = true ->
  active_class db (BookingCreate.class_id booking_data) = Some c ->
  FitnessClass.is_past tz_manager (utcnow env) c = OK false ->
  0 < FitnessClass.available_slots c ->
  confirmed_booking db (BookingCreate.class_id booking_data)
    (BookingCreate.client_email booking_data) = Some b ->
  create_booking booking_data env (Session_open db) =
  (Raise (DuplicateBookingException
            ("Client " ++ BookingCreate.client_email booking_data
             ++ " already has a booking for this class")%string
            [("existing_booking_id", VInt (Booking.id b))]),
   Session_open db).
Proof.
  intros Hi Hc Hp Hs Hb.
  apply Z.leb_gt in Hs.
  run_create_booking Hi. rewrite Hc. cbn. rewrite Hp, Hs. cbn. rewrite Hb. reflexivity.
Qed.

Lemma flush_row_about_to_commit db c booking_data env now row :
  flush_row (about_to_commit db c booking_data env) now row = book_slot c now row.
Proof.
  unfold flush_row, book_slot, is_dirty, lookup_identity. cbn.
  rewrite (Z.eqb_sym (FitnessClass.id row) (FitnessClass.id c)).
  destruct (FitnessClass.id c =? FitnessClass.id row); reflexivity.
Qed.

Lemma below_next_id (ids : list Z) (i : Z) : In i ids -> i < next_id ids.
Proof.
  unfold next_id. induction ids as [|j ids IH]; intros H.
  - contradiction.
  - change (fold_right Z.max 0 (j :: ids)) with (Z.max j (fold_right Z.max 0 ids)).
    destruct H as [->|H]; [|specialize (IH H)]; lia.
Qed.

Lemma find_append {A} (f : A -> bool) (l1 l2 : list A) :
  find f (l1 ++ l2) = match find f l1 with Some x => Some x | None => find f l2 end.
Proof.
  induction l1 as [|x l1 IH]; cbn; [reflexivity|].
  destruct (f x); [reflexivity|exact IH].
Qed.

Lemma find_next_id (rows : list Booking.t) :
  find (fun r => Booking.id r =? next_id (map Booking.id rows)) rows = None.
Proof.
  destruct (find _ rows) as [r|] eqn:E; [|reflexivity].
  apply find_some in E. destruct E as [Hin Heq].
  apply Z.eqb_eq in Heq.
  assert (Booking.id r < next_id (map Booking.id rows))
    by (apply below_next_id, in_map, Hin).
  lia.
Qed.

Lemma commit_about_to_commit db c booking_data env :
  commit_fault env = None ->
  reference_taken db (_generate_booking_reference env) = false ->
  commit env (about_to_commit db c booking_data env) =
  (OK [booked_row db booking_data env],
   Session_open (booked db c booking_data env)).
Proof.
  intros Hf Hr. unfold commit. rewrite Hf. cbn.
  unfold reference_taken in Hr. rewrite Hr.
  unfold booked, booked_row. cbn.
  rewrite (map_ext _ _ (flush_row_about_to_commit db c booking_data env (func_now env))).
  reflexivity.
Qed.

Lemma refresh_booked db c booking_data env :
  refresh_fault env = None ->
  refresh env (Booking.id (booked_row db booking_data env))
    (Session_open (booked db c booking_data env)) =
  (OK (booked_row db booking_data env), Session_open (booked db c booking_data env)).
Proof.
  intros Hf. unfold refresh. rewrite Hf. cbn.
  rewrite find_append, find_next_id. cbn. rewrite Z.eqb_refl. reflexivity.
Qed.

Ltac reach_commit Hi Hc Hp Hs Hb :=
  apply Z.leb_gt in Hs;
  run_create_booking Hi; rewrite Hc; cbn; rewrite Hp, Hs; cbn; rewrite Hb;
  unfold setattr, add_booking; cbn; rewrite Z.eqb_refl;
  match goal with
  | |- context [commit ?env ?s] =>
      match goal with
      | db : Database, c : FitnessClass.t, d : BookingCreate.t |- _ =>
          change s with (about_to_commit db c d env)
      end
  end.

Lemma create_booking_commit_fault db booking_data env c msg :
  sqlite_integer (BookingCreate.class_id booking_data) = true ->
  active_class db (BookingCreate.class_id booking_data) = Some c ->
  FitnessClass.is_past tz_manager (utcnow env) c = OK false ->
  0 < FitnessClass.available_slots c ->
  confirmed_booking db (BookingCreate.class_id booking_data)
    (BookingCreate.client_email booking_data) = None ->
  commit_fault env = Some msg ->
  create_booking booking_data env (Session_open db) =
  (Raise (InvalidBookingDataException
            ("Failed to create booking: " ++ msg)%string []),
   Session_open db).
Proof.
  intros Hi Hc Hp Hs Hb Hf. reach_commit Hi Hc Hp Hs Hb.
  unfold commit. rewrite Hf. reflexivity.
Qed.

Lemma create_booking_reference_taken db booking_data env c :
  sqlite_integer (BookingCreate.class_id booking_data) = true ->
  active_class db (BookingCreate.class_id booking_data) = Some c ->
  FitnessClass.is_past tz_manager (utcnow env) c = OK false ->
  0 < FitnessClass.available_slots c ->
  confirmed_booking db (BookingCreate.class_id booking_data)
    (BookingCreate.client_email booking_data) = None ->
  commit_fault env = None ->
  reference_taken db (_generate_booking_reference env) = true ->
  create_booking booking_data env (Session_open db) =
  (Raise (InvalidBookingDataException
            ("Failed to create booking: " ++ constraint_text env)%string []),
   Session_open db).
Proof.
  intros Hi Hc Hp Hs Hb Hf Hr. reach_commit Hi Hc Hp Hs Hb.
  unfold commit. rewrite Hf. cbn.
  unfold reference_taken in Hr. rewrite Hr. reflexivity.
Qed.

Lemma create_booking_refresh_fault db booking_data env c msg :
  sqlite_integer (BookingCreate.class_id booking_data) = true ->
  active_class db (BookingCreate.class_id booking_data) = Some c ->
  FitnessClass.is_past tz_manager (utcnow env) c = OK false ->
  0 < FitnessClass.available_slots c ->
  confirmed_booking db (BookingCreate.class_id booking_data)
    (BookingCreate.client_email booking_data) = None ->
  commit_fault env = None ->
  reference_taken db (_generate_booking_reference env) = false ->
  refresh_fault env = Some msg ->
  create_booking booking_data env (Session_open db) =
  (Raise (InvalidBookingDataException
            ("Failed to create booking: " ++ msg)%string []),
   Session_open (booked db c booking_data env)).
Proof.
  intros Hi Hc Hp Hs Hb Hf Hr Hx. reach_commit Hi Hc Hp Hs Hb.
  rewrite (commit_about_to_commit _ _ _ _ Hf Hr). cbn.
  unfold refresh. rewrite Hx. reflexivity.
Qed.

Lemma create_booking_commits db booking_data env c :
  sqlite_integer (BookingCreate.class_id booking_data) = true ->
  active_class db (BookingCreate.class_id booking_data) = Some c ->
  FitnessClass.is_past tz_manager (utcnow env) c = OK false ->
  0 < FitnessClass.available_slots c ->
  confirmed_booking db (BookingCreate.class_id booking_data)
    (BookingCreate.client_email booking_data) = None ->
  commit_fault env = None ->
  reference_taken db (_generate_booking_reference env) = false ->
  refresh_fault env = None ->
  create_booking booking_data env (Session_open db) =
  (OK (booked_row db booking_data env),
   Session_open (booked db c booking_data env)).
Proof.
  intros Hi Hc Hp Hs Hb Hf Hr Hx. reach_commit Hi Hc Hp Hs Hb.
  rewrite (commit_about_to_commit _ _ _ _ Hf Hr).
  change (last_inserted [booked_row db booking_data env])
    with (Some (booked_row db booking_data env)). cbv beta iota.
  rewrite (refresh_booked _ _ _ _ Hx). reflexivity.
Qed.

(** The branches of [create_booking], for a case analysis. *)
Ltac booking_cases db d env :=
  let c := fresh "c" in
  let Hc := fresh "Hc" in
  let Hp := fresh "Hp" in
  let Hs := fresh "Hs" in
  let Hb := fresh "Hb" in
  let Hf := fresh "Hf" in
  let Hr := fresh "Hr" in
  let Hx := fresh "Hx" in
  let Hi := fresh "Hi" in
  destruct (sqlite_integer (BookingCreate.class_id d)) eqn:Hi;
  [ destruct (active_class db (BookingCreate.class_id d)) as [c|] eqn:Hc;
  [ destruct (FitnessClass.is_past tz_manager (utcnow env) c) as [[|]|?e] eqn:Hp;
    [ rewrite (create_booking_past _ _ _ _ Hi Hc Hp)
    | destruct (Z_le_gt_dec (FitnessClass.available_slots c) 0) as [Hs|Hs];
      [ rewrite (create_booking_no_slots _ _ _ _ Hi Hc Hp Hs)
      | apply Z.gt_lt in Hs;
        destruct (confirmed_booking db (BookingCreate.class_id d)
                    (BookingCreate.client_email d)) as [?b|] eqn:Hb;
        [ rewrite (create_booking_duplicate _ _ _ _ _ Hi Hc Hp Hs Hb)
        | destruct (commit_fault env) as [?msg|] eqn:Hf;
          [ rewrite (create_booking_commit_fault _ _ _ _ _ Hi Hc Hp Hs Hb Hf)
          | destruct (reference_taken db (_generate_booking_reference env)) eqn:Hr;
            [ rewrite (create_booking_reference_taken _ _ _ _ Hi Hc Hp Hs Hb Hf Hr)
            | destruct (refresh_fault env) as [?msg|] eqn:Hx;
              [ rewrite (create_booking_refresh_fault _ _ _ _ _ Hi Hc Hp Hs Hb Hf Hr Hx)
              | rewrite (create_booking_commits _ _ _ _ Hi Hc Hp Hs Hb Hf Hr Hx) ] ] ] ] ]
    | rewrite (create_booking_timing_raises _ _ _ _ _ Hi Hc Hp) ]
  | rewrite (create_booking_class_not_found _ _ _ Hi Hc) ]
  | rewrite (create_booking_overflow _ _ _ Hi) ].

(** A call leaves the committed rows as they were, or as [booked]
    describes; the latter only when the four checks pass and the store
    accepts the commit. *)
Lemma create_booking_store db booking_data env :
  snd (create_booking booking_data env (Session_open db)) = Session_open db
  \/ exists c,
       active_class db (BookingCreate.class_id booking_data) = Some c
       /\ FitnessClass.is_past tz_manager (utcnow env) c = OK false
       /\ 0 < FitnessClass.available_slots c
       /\ confirmed_booking db (BookingCreate.class_id booking_data)
            (BookingCreate.client_email booking_data) = None
       /\ commit_fault env = None
       /\ reference_taken db (_generate_booking_reference env) = false
       /\ snd (create_booking booking_data env (Session_open db))
          = Session_open (booked db c booking_data env).
Proof.
  booking_cases db booking_data env; cbn [snd]; auto;
    right; exists c; repeat split; auto.
Qed.

(** When both timestamps carry an offset, [is_past] compares instants. *)
Lemma is_past_aware (c : FitnessClass.t) (clock : Z) :
  tz (FitnessClass.class_datetime c) <> None ->
  FitnessClass.is_past tz_manager clock c
  = OK (instant (FitnessClass.class_datetime c) <? clock).
Proof.
  unfold FitnessClass.is_past, datetime_lt, instant, PyTime.now, fromutc. cbn.
  destruct (tz (FitnessClass.class_datetime c)) as [o|]; [intros _|congruence].
  f_equal. f_equal. lia.
Qed.

(** Were the rows to carry an offset, the error raised would be the one
    the first failing check calls for, in the order existence, timing,
    capacity, duplicate; when no check fails, what is raised (if
    anything) comes from the store. *)
Lemma create_booking_reports_first_failing_check db booking_data env :
  sqlite_integer (BookingCreate.class_id booking_data) = true ->
  (forall c, active_class db (BookingCreate.class_id booking_data) = Some c ->
             tz (FitnessClass.class_datetime c) <> None) ->
  match spec_first_failing_check db booking_data env with
  | Some ch =>
      exists e, create_booking booking_data env (Session_open db)
                = (Raise e, Session_open db)
                /\ reports ch e = true
  | None =>
      forall e, fst (create_booking booking_data env (Session_open db)) = Raise e ->
                exists cause, e = InvalidBookingDataException
                                    ("Failed to create booking: " ++ cause)%string []
  end.
Proof.
  intros Hi Haware. unfold spec_first_failing_check.
  destruct (active_class db (BookingCreate.class_id booking_data)) as [c|] eqn:Hc.
  - pose proof (is_past_aware c (utcnow env) (Haware c eq_refl)) as Hp.
    destruct (instant (FitnessClass.class_datetime c) <? utcnow env).
    + rewrite (create_booking_past _ _ _ _ Hi Hc Hp). eexists; split; reflexivity.
    + destruct (FitnessClass.available_slots c <=? 0) eqn:Hs.
      * apply Z.leb_le in Hs.
        rewrite (create_booking_no_slots _ _ _ _ Hi Hc Hp Hs). eexists; split; reflexivity.
      * apply Z.leb_gt in Hs.
        destruct (confirmed_booking db _ _) as [b|] eqn:Hb.
        -- rewrite (create_booking_duplicate _ _ _ _ _ Hi Hc Hp Hs Hb).
           eexists; split; reflexivity.
        -- intros e.
           destruct (commit_fault env) as [msg|] eqn:Hf;
             [rewrite (create_booking_commit_fault _ _ _ _ _ Hi Hc Hp Hs Hb Hf)|
              destruct (reference_taken db (_generate_booking_reference env)) eqn:Hr;
              [rewrite (create_booking_reference_taken _ _ _ _ Hi Hc Hp Hs Hb Hf Hr)|
               destruct (refresh_fault env) as [msg|] eqn:Hx;
               [rewrite (create_booking_refresh_fault _ _ _ _ _ Hi Hc Hp Hs Hb Hf Hr Hx)|
                rewrite (create_booking_commits _ _ _ _ Hi Hc Hp Hs Hb Hf Hr Hx)]]];
             cbn [fst]; intros H; inversion H; eexists; reflexivity.
  - rewrite (create_booking_class_not_found _ _ _ Hi Hc). eexists; split; reflexivity.
Qed.

(** A check that fails hides the checks after it: the bookings table is
    not looked at when one of the first three checks fails. *)
Lemma earlier_failure_hides_the_duplicate_check db booking_data env rows ch :
  sqlite_integer (BookingCreate.class_id booking_data) = true ->
  (forall c, active_class db (BookingCreate.class_id booking_data) = Some c ->
             tz (FitnessClass.class_datetime c) <> None) ->
  spec_first_failing_check db booking_data env = Some ch ->
  ch <> duplicate ->
  fst (create_booking booking_data env
         (Session_open {| fitness_classes := fitness_classes db; bookings := rows |}))
  = fst (create_booking booking_data env (Session_open db)).
Proof.
  intros Hi Haware Hspec Hch. unfold spec_first_failing_check in Hspec.
  set (db' := {| fitness_classes := fitness_classes db; bookings := rows |}).
  assert (Hsame : active_class db' (BookingCreate.class_id booking_data)
                  = active_class db (BookingCreate.class_id booking_data)) by reflexivity.
  destruct (active_class db (BookingCreate.class_id booking_data)) as [c|] eqn:Hc.
  - pose proof (is_past_aware c (utcnow env) (Haware c eq_refl)) as Hp.
    destruct (instant (FitnessClass.class_datetime c) <? utcnow env).
    + rewrite (create_booking_past db' _ _ _ Hi Hsame Hp),
              (create_booking_past db _ _ _ Hi Hc Hp). reflexivity.
    + destruct (FitnessClass.available_slots c <=? 0) eqn:Hs.
      * apply Z.leb_le in Hs.
        rewrite (create_booking_no_slots db' _ _ _ Hi Hsame Hp Hs),
                (create_booking_no_slots db _ _ _ Hi Hc Hp Hs). reflexivity.
      * destruct (confirmed_booking db _ _); inversion Hspec; congruence.
  - rewrite (create_booking_class_not_found db' _ _ Hi Hsame),
            (create_booking_class_not_found db _ _ Hi Hc). reflexivity.
Qed.

(* --------------------------------------------------------------- *)
(** *** Reads leave the committed rows alone *)

Lemma keeps_ret {A} (a : A) : keeps_committed (ret a).
Proof. intros s; reflexivity. Qed.

Lemma keeps_raise {A} (e : exn) : keeps_committed (@raise A e).
Proof. intros s; reflexivity. Qed.

Lemma keeps_lift {A} (r : result A) : keeps_committed (lift r).
Proof. intros s; reflexivity. Qed.

Lemma keeps_bind {A B} (m : M A) (k : A -> M B) :
  keeps_committed m -> (forall a, keeps_committed (k a)) -> keeps_committed (bind m k).
Proof.
  intros Hm Hk s. unfold bind. specialize (Hm s).
  destruct (m s) as [[a|e] s']; cbn [snd] in *.
  - rewrite Hk. exact Hm.
  - exact Hm.
Qed.

Lemma keeps_try_except {A} (body : M A) (handler : exn -> M A) :
  keeps_committed body -> (forall e, keeps_committed (handler e)) ->
  keeps_committed (try_except body handler).
Proof.
  intros Hm Hk s. unfold try_except. specialize (Hm s).
  destruct (body s) as [[a|e] s']; cbn [snd] in *.
  - exact Hm.
  - rewrite Hk. exact Hm.
Qed.

Lemma keeps_load row : keeps_committed (load row).
Proof.
  intros s. unfold load.
  destruct (lookup_identity (FitnessClass.id row) (identity_map s)); reflexivity.
Qed.

Lemma keeps_deref i : keeps_committed (deref i).
Proof.
  intros s. unfold deref. destruct (lookup_identity i (identity_map s)); reflexivity.
Qed.

Lemma keeps_setattr i a f : keeps_committed (setattr i a f).
Proof. intros s; reflexivity. Qed.

Lemma keeps_rollback : keeps_committed rollback.
Proof. intros s; reflexivity. Qed.

Lemma keeps_load_all rows : keeps_committed (load_all rows).
Proof.
  induction rows as [|row rows IH]; cbn [load_all].
  - apply keeps_ret.
  - apply keeps_bind; [apply keeps_load|intros o].
    apply keeps_bind; [exact IH|intros ids]. apply keeps_ret.
Qed.

Lemma keeps_deref_all ids : keeps_committed (deref_all ids).
Proof.
  induction ids as [|i ids IH]; cbn [deref_all].
  - apply keeps_ret.
  - apply keeps_bind; [apply keeps_deref|intros o].
    apply keeps_bind; [exact IH|intros os]. apply keeps_ret.
Qed.

Lemma keeps_convert_each classes timezone :
  keeps_committed (convert_each classes timezone).
Proof.
  induction classes as [|i rest IH]; cbn [convert_each].
  - apply keeps_ret.
  - apply keeps_bind; [apply keeps_deref|intros o].
    apply keeps_bind; [apply keeps_lift|intros dt].
    apply keeps_bind; [apply keeps_setattr|intros _]. exact IH.
Qed.

Lemma keeps_get_all_classes timezone env :
  keeps_committed (get_all_classes timezone env).
Proof.
  unfold get_all_classes.
  apply keeps_try_except; [|intros e; apply keeps_raise].
  apply keeps_bind; [apply keeps_lift|intros current_time].
  apply keeps_bind; [intros s; reflexivity|intros rows].
  apply keeps_bind; [apply keeps_load_all|intros classes].
  apply keeps_bind; [|intros _; apply keeps_deref_all].
  destruct timezone as [tzname|]; [|apply keeps_ret].
  destruct (PyStr.truthy tzname && negb (Nat.eqb (List.length classes) 0));
    [apply keeps_convert_each|apply keeps_ret].
Qed.

Lemma keeps_get_bookings_by_email client_email :
  keeps_committed (get_bookings_by_email client_email).
Proof.
  unfold get_bookings_by_email.
  apply keeps_try_except; [intros s; reflexivity|intros e; apply keeps_raise].
Qed.

(* --------------------------------------------------------------- *)
(** *** Seeding *)

Lemma create_sample_classes_store db env :
  committed (snd (create_sample_classes env (Session_open db))) = db
  \/ (fitness_classes db = [] /\ commit_fault env = None
      /\ committed (snd (create_sample_classes env (Session_open db)))
         = {| fitness_classes := seeded env; bookings := bookings db |}).
Proof.
  unfold create_sample_classes, try_except.
  cbn [committed Session_open].
  destruct (fitness_classes db) as [|row rows] eqn:Hrows.
  - destruct (commit_fault env) as [msg|] eqn:Hf.
    + left. unfold bind, lift, commit. cbn. rewrite Hf. reflexivity.
    + right. repeat split. unfold bind, lift, commit. cbn. rewrite Hf, Hrows.
      reflexivity.
  - left. reflexivity.
Qed.

Lemma seeded_ids env : map FitnessClass.id (seeded env) = [1; 2; 3].
Proof. reflexivity. Qed.

Lemma seeded_slots env c :
  In c (seeded env) ->
  FitnessClass.available_slots c = FitnessClass.max_slots c
  /\ 0 <= FitnessClass.max_slots c.
Proof.
  intros [<-|[<-|[<-|[]]]]; cbn; lia.
Qed.

(* --------------------------------------------------------------- *)
(** *** The primary key *)

Lemma same_key_same_row {A} (key : A -> Z) (l : list A) (a b : A) :
  NoDup (map key l) -> In a l -> In b l -> key a = key b -> a = b.
Proof.
  induction l as [|x l IH]; cbn; intros Hnd Ha Hb Hk; [contradiction|].
  inversion Hnd as [|? ? Hnotin Hnd']; subst.
  destruct Ha as [->|Ha], Hb as [->|Hb]; auto.
  - exfalso. apply Hnotin. rewrite Hk. apply in_map, Hb.
  - exfalso. apply Hnotin. rewrite <- Hk. apply in_map, Ha.
Qed.

Lemma active_class_found db class_id c :
  active_class db class_id = Some c ->
  In c (fitness_classes db) /\ FitnessClass.id c = class_id
  /\ FitnessClass.is_active c = true.
Proof.
  unfold active_class. intros H. apply find_some in H. destruct H as [Hin H].
  apply andb_true_iff in H. destruct H as [H1 H2]. apply Z.eqb_eq in H1. auto.
Qed.

Lemma book_slot_id c now row :
  FitnessClass.id (book_slot c now row) = FitnessClass.id row.
Proof.
  unfold book_slot. destruct (FitnessClass.id row =? FitnessClass.id c); reflexivity.
Qed.

Lemma primary_key_booked db c booking_data env :
  primary_key db -> primary_key (booked db c booking_data env).
Proof.
  unfold primary_key, booked. cbn [fitness_classes].
  rewrite map_map. intros H.
  rewrite (map_ext _ FitnessClass.id (book_slot_id c (func_now env))). exact H.
Qed.

(** With a primary key, a booking touches one row: that of the class. *)
Lemma book_slot_on_the_class db class_id c now row :
  primary_key db ->
  active_class db class_id = Some c ->
  In row (fitness_classes db) ->
  book_slot c now row =
  if FitnessClass.id row =? class_id
  then FitnessClass.with_updated_at now
         (FitnessClass.with_available_slots (FitnessClass.available_slots row - 1) row)
  else row.
Proof.
  intros Hpk Hc Hin. apply active_class_found in Hc. destruct Hc as [Hcin [Hid _]].
  unfold book_slot. rewrite Hid.
  destruct (FitnessClass.id row =? class_id) eqn:E; [|reflexivity].
  apply Z.eqb_eq in E.
  assert (row = c) as -> by (apply (same_key_same_row FitnessClass.id _ _ _ Hpk Hin Hcin); lia).
  reflexivity.
Qed.

(* --------------------------------------------------------------- *)
(** *** Capacity bookkeeping *)

Lemma slots_invariant_booked db c booking_data env :
  primary_key db ->
  active_class db (BookingCreate.class_id booking_data) = Some c ->
  0 < FitnessClass.available_slots c ->
  slots_invariant db ->
  slots_invariant (booked db c booking_data env).
Proof.
  intros Hpk Hc Hs Hinv row' Hin. unfold booked in Hin. cbn [fitness_classes] in Hin.
  apply in_map_iff in Hin. destruct Hin as [row [<- Hin]].
  rewrite (book_slot_on_the_class _ _ _ _ _ Hpk Hc Hin).
  pose proof (Hinv row Hin) as [Hrow _].
  destruct (FitnessClass.id row =? BookingCreate.class_id booking_data) eqn:E.
  - apply Z.eqb_eq in E. apply active_class_found in Hc. destruct Hc as [Hcin [Hid _]].
    assert (row = c) as -> by (apply (same_key_same_row FitnessClass.id _ _ _ Hpk Hin Hcin); lia).
    unfold slots_ok, FitnessClass.booked_slots. cbn. lia.
  - apply Hinv, Hin.
Qed.

(* --------------------------------------------------------------- *)
(** *** One confirmed booking per client and class *)

Lemma find_none_filter {A} (f : A -> bool) (l : list A) :
  find f l = None -> filter f l = [].
Proof.
  induction l as [|x l IH]; cbn; [reflexivity|].
  destruct (f x); [discriminate|exact IH].
Qed.

Lemma confirmed_for_booked_row db booking_data env class_id email :
  confirmed_for class_id email (booked_row db booking_data env) = true ->
  class_id = BookingCreate.class_id booking_data
  /\ email = BookingCreate.client_email booking_data.
Proof.
  unfold confirmed_for, booked_row, booking_row. cbn. intros H.
  apply andb_true_iff in H. destruct H as [H _].
  apply andb_true_iff in H. destruct H as [H1 H2].
  apply Z.eqb_eq in H1. apply String.eqb_eq in H2. auto.
Qed.

Lemma at_most_one_confirmed_booked db c booking_data env :
  confirmed_booking db (BookingCreate.class_id booking_data)
    (BookingCreate.client_email booking_data) = None ->
  at_most_one_confirmed db ->
  at_most_one_confirmed (booked db c booking_data env).
Proof.
  intros Hb Hinv class_id email. unfold booked. cbn [bookings].
  rewrite filter_app, length_app. cbn [filter].
  destruct (confirmed_for class_id email (booked_row db booking_data env)) eqn:E.
  - apply confirmed_for_booked_row in E. destruct E as [-> ->].
    unfold confirmed_booking in Hb. rewrite (find_none_filter _ _ Hb). cbn. lia.
  - specialize (Hinv class_id email). cbn. lia.
Qed.

(* --------------------------------------------------------------- *)
(** *** Every call keeps the three invariants *)

Lemma consistent_empty : consistent empty_database.
Proof.
  split; [constructor|split].
  - intros c [].
  - intros class_id email. cbn. lia.
Qed.

Lemma slots_invariant_seeded env db :
  slots_invariant {| fitness_classes := seeded env; bookings := bookings db |}.
Proof.
  intros c Hin. cbn [fitness_classes] in Hin.
  destruct (seeded_slots env c Hin).
  unfold slots_ok, FitnessClass.booked_slots. lia.
Qed.

Lemma primary_key_serve db r env : primary_key db -> primary_key (serve db r env).
Proof.
  intros Hpk. destruct r as [|d|timezone|email]; cbn [serve].
  - destruct (create_sample_classes_store db env) as [->|[Hnil [Hf ->]]]; [assumption|].
    unfold primary_key. cbn [fitness_classes]. rewrite seeded_ids.
    repeat constructor; cbn; intuition lia.
  - destruct (create_booking_store db d env)
      as [->|[c [Hc [Hp [Hs [Hb [Hf [Hr ->]]]]]]]]; cbn [committed Session_open];
      [assumption|apply primary_key_booked, Hpk].
  - rewrite keeps_get_all_classes. assumption.
  - rewrite keeps_get_bookings_by_email. assumption.
Qed.

Lemma slots_invariant_serve db r env :
  primary_key db -> slots_invariant db -> slots_invariant (serve db r env).
Proof.
  intros Hpk Hslots. destruct r as [|d|timezone|email]; cbn [serve].
  - destruct (create_sample_classes_store db env) as [->|[Hnil [Hf ->]]];
      [assumption|apply slots_invariant_seeded].
  - destruct (create_booking_store db d env)
      as [->|[c [Hc [Hp [Hs [Hb [Hf [Hr ->]]]]]]]]; cbn [committed Session_open];
      [assumption|apply (slots_invariant_booked _ _ _ _ Hpk Hc Hs Hslots)].
  - rewrite keeps_get_all_classes. assumption.
  - rewrite keeps_get_bookings_by_email. assumption.
Qed.

Lemma at_most_one_confirmed_serve db r env :
  at_most_one_confirmed db -> at_most_one_confirmed (serve db r env).
Proof.
  intros Hone. destruct r as [|d|timezone|email]; cbn [serve].
  - destruct (create_sample_classes_store db env) as [->|[Hnil [Hf ->]]];
      [assumption|exact Hone].
  - destruct (create_booking_store db d env)
      as [->|[c [Hc [Hp [Hs [Hb [Hf [Hr ->]]]]]]]]; cbn [committed Session_open];
      [assumption|apply (at_most_one_confirmed_booked _ _ _ _ Hb Hone)].
  - rewrite keeps_get_all_classes. assumption.
  - rewrite keeps_get_bookings_by_email. assumption.
Qed.

Lemma consistent_serve db r env : consistent db -> consistent (serve db r env).
Proof.
  intros [Hpk [Hslots Hone]]. split; [|split].
  - apply primary_key_serve, Hpk.
  - apply slots_invariant_serve; assumption.
  - apply at_most_one_confirmed_serve, Hone.
Qed.

Lemma reachable_consistent db : reachable db -> consistent db.
Proof.
  induction 1 as [|db r env _ IH]; [apply consistent_empty|apply consistent_serve, IH].
Qed.

(* --------------------------------------------------------------- *)
(** *** The booking reference *)

Lemma hex_digit_lower (d : Z) : is_lower_hex (hex_digit d) = true.
Proof.
  unfold hex_digit. generalize (Z.to_nat d). intros n.
  do 17 (destruct n as [|n]; [reflexivity|]). destruct n; reflexivity.
Qed.

Lemma toupper_hex (c : ascii) :
  is_lower_hex c = true -> is_upper_hex (PyStr.toupper c) = true.
Proof.
  destruct c as [[] [] [] [] [] [] [] []]; vm_compute; congruence.
Qed.

Lemma hex_digits_length n v : String.length (hex_digits n v) = n.
Proof. induction n as [|n IH]; cbn [hex_digits String.length]; congruence. Qed.

Lemma hex_digits_lower n v :
  forallb is_lower_hex (list_ascii_of_string (hex_digits n v)) = true.
Proof.
  induction n as [|n IH]; cbn [hex_digits list_ascii_of_string forallb]; [reflexivity|].
  rewrite hex_digit_lower, IH. reflexivity.
Qed.

Lemma substring_prefix_length (k : nat) (s : string) :
  (k <= String.length s)%nat -> String.length (substring 0 k s) = k.
Proof.
  revert s. induction k as [|k IH]; intros s H.
  - destruct s; reflexivity.
  - destruct s as [|c s]; cbn in *; [lia|]. rewrite IH; [reflexivity|lia].
Qed.

Lemma substring_prefix_forallb (P : ascii -> bool) (k : nat) (s : string) :
  forallb P (list_ascii_of_string s) = true ->
  forallb P (list_ascii_of_string (substring 0 k s)) = true.
Proof.
  revert s. induction k as [|k IH]; intros s H.
  - destruct s; reflexivity.
  - destruct s as [|c s]; cbn in *; [reflexivity|].
    apply andb_true_iff in H. destruct H as [H1 H2]. rewrite H1, (IH s H2). reflexivity.
Qed.

Lemma upper_length s : String.length (PyStr.upper s) = String.length s.
Proof. induction s as [|c s IH]; cbn; congruence. Qed.

Lemma upper_hex s :
  forallb is_lower_hex (list_ascii_of_string s) = true ->
  forallb is_upper_hex (list_ascii_of_string (PyStr.upper s)) = true.
Proof.
  induction s as [|c s IH]; cbn [PyStr.upper list_ascii_of_string forallb]; [reflexivity|].
  intros H. apply andb_true_iff in H. destruct H as [H1 H2].
  rewrite (toupper_hex c H1), (IH H2). reflexivity.
Qed.

Lemma generated_reference_format env :
  reference_format (_generate_booking_reference env) = true.
Proof.
  unfold _generate_booking_reference, hex.
  change ("FB" ++ ?s)%string with (String "F" (String "B" s)).
  cbn [reference_format].
  rewrite upper_length, substring_prefix_length by (rewrite hex_digits_length; lia).
  rewrite upper_hex by (apply substring_prefix_forallb, hex_digits_lower).
  reflexivity.
Qed.

(** What a successful call returns is the row it inserted. *)
Lemma create_booking_returns db booking_data env b :
  fst (create_booking booking_data env (Session_open db)) = OK b ->
  b = booked_row db booking_data env
  /\ In b (bookings (committed (snd (create_booking booking_data env (Session_open db))))).
Proof.
  booking_cases db booking_data env; cbn [fst snd]; intros H; inversion H; subst.
  split; [reflexivity|].
  unfold booked. cbn [committed Session_open bookings].
  apply in_or_app. right. left. reflexivity.
Qed.

(** A start stored without offset cannot be compared with the aware
    [now]: the call stops there, whatever the other checks would say. *)
Lemma create_booking_offset_free db booking_data env c :
  sqlite_integer (BookingCreate.class_id booking_data) = true ->
  active_class db (BookingCreate.class_id booking_data) = Some c ->
  tz (FitnessClass.class_datetime c) = None ->
  create_booking booking_data env (Session_open db)
  = (Raise (InvalidBookingDataException
              "Failed to create booking: can't compare offset-naive and offset-aware datetimes"
              []),
     Session_open db).
Proof.
  intros Hi Hc Hnaive.
  apply (create_booking_timing_raises db booking_data env c
           (TypeError "can't compare offset-naive and offset-aware datetimes") Hi Hc).
  unfold FitnessClass.is_past, datetime_lt. rewrite Hnaive. reflexivity.
Qed.

Lemma reachable_run db calls : reachable db -> reachable (run db calls).
Proof.
  revert db. induction calls as [|[r env] calls IH]; intros db H; [exact H|].
  cbn [run fold_left]. apply IH. apply reachable_serve, H.
Qed.




(** On the rows the store hands back, a call for a class that the
    existence check finds stops at the timing check. *)
Lemma create_booking_stored_class db booking_data env c :
  offset_free db ->
  sqlite_integer (BookingCreate.class_id booking_data) = true ->
  active_class db (BookingCreate.class_id booking_data) = Some c ->
  create_booking booking_data env (Session_open db)
  = (Raise (InvalidBookingDataException
              "Failed to create booking: can't compare offset-naive and offset-aware datetimes"
              []),
     Session_open db).
Proof.
  intros Hdb Hi Hc.
  apply (create_booking_offset_free db booking_data env c Hi Hc).
  apply Hdb. apply (active_class_found _ _ _ Hc).
Qed.

(** So no call on such rows books: it raises and writes nothing. *)
Lemma create_booking_stored db booking_data env :
  offset_free db ->
  snd (create_booking booking_data env (Session_open db)) = Session_open db
  /\ exists e, fst (create_booking booking_data env (Session_open db)) = Raise e.
Proof.
  intros Hdb.
  destruct (sqlite_integer (BookingCreate.class_id booking_data)) eqn:Hi.
  - destruct (active_class db (BookingCreate.class_id booking_data)) as [c|] eqn:Hc.
    + rewrite (create_booking_stored_class _ _ _ _ Hdb Hi Hc).
      split; [reflexivity|eexists; reflexivity].
    + rewrite (create_booking_class_not_found _ _ _ Hi Hc).
      split; [reflexivity|eexists; reflexivity].
  - rewrite (create_booking_overflow _ _ _ Hi).
    split; [reflexivity|eexists; reflexivity].
Qed.

(** The store never holds an offset: what it is given loses it. *)
Lemma offset_free_seeded env c :
  In c (seeded env) -> tz (FitnessClass.class_datetime c) = None.
Proof. intros [<-|[<-|[<-|[]]]]; reflexivity. Qed.

Lemma offset_free_serve db r env : offset_free db -> offset_free (serve db r env).
Proof.
  intros Hdb. destruct r as [|d|tzname|email]; cbn [serve].
  - destruct (create_sample_classes_store db env) as [->|[_ [_ ->]]]; [exact Hdb|].
    intros c Hin. apply (offset_free_seeded env c Hin).
  - rewrite (proj1 (create_booking_stored db d env Hdb)). exact Hdb.
  - rewrite keeps_get_all_classes. exact Hdb.
  - rewrite keeps_get_bookings_by_email. exact Hdb.
Qed.

Lemma reachable_offset_free db : reachable db -> offset_free db.
Proof.
  induction 1 as [|db r env _ IH]; [intros c []|apply offset_free_serve, IH].
Qed.

(* --------------------------------------------------------------- *)
(** *** The properties of the booking workflow *)

(** Claim C1, where the code departs from it.  On the rows the store
    hands back, a request for an active class with no slot left (zero or
    fewer) is not refused with [NoSlotsAvailable]: the timing check, which
    comes first, cannot compare the start with the aware [now], and the
    call reports [InvalidBookingData].  The other half of the claim
    holds: this call, and every call on such rows, leaves both tables as
    they were, and nothing pending. *)
Theorem full_class_is_not_refused_for_capacity db booking_data env c :
  offset_free db ->
  sqlite_integer (BookingCreate.class_id booking_data) = true ->
  active_class db (BookingCreate.class_id booking_data) = Some c ->
  FitnessClass.available_slots c <= 0 ->
  create_booking booking_data env (Session_open db)
  = (Raise (InvalidBookingDataException
              "Failed to create booking: can't compare offset-naive and offset-aware datetimes"
              []),
     Session_open db)
  /\ (forall m d, fst (create_booking booking_data env (Session_open db))
                  <> Raise (NoSlotsAvailableException m d))
  /\ (forall d env', snd (create_booking d env' (Session_open db)) = Session_open db).
Proof.
  intros Hdb Hi Hc _.
  rewrite (create_booking_stored_class _ _ _ _ Hdb Hi Hc).
  split; [reflexivity|]. split; [intros m d; cbn [fst]; discriminate|].
  intros d env'. apply (create_booking_stored db d env' Hdb).
Qed.


(** Claim C3, where the code departs from it.  On the rows the store
    hands back, a request that passes the four checks as the
    specification words them (the class is active, starts later than now,
    has a slot left, and the client holds no confirmed booking of it)
    creates no booking and lowers no [available_slots]: the call stops at
    the timing check, reports [InvalidBookingData] and leaves both tables
    as they were. *)
Theorem accepted_request_creates_no_booking db booking_data env :
  offset_free db ->
  sqlite_integer (BookingCreate.class_id booking_data) = true ->
  spec_first_failing_check db booking_data env = None ->
  create_booking booking_data env (Session_open db)
  = (Raise (InvalidBookingDataException
              "Failed to create booking: can't compare offset-naive and offset-aware datetimes"
              []),
     Session_open db)
  /\ serve db (CreateBooking booking_data) env = db.
Proof.
  intros Hdb Hi Hspec. unfold spec_first_failing_check in Hspec.
  destruct (active_class db (BookingCreate.class_id booking_data)) as [c|] eqn:Hc;
    [|discriminate].
  cbn [serve]. rewrite (create_booking_stored_class _ _ _ _ Hdb Hi Hc).
  split; reflexivity.
Qed.

(** Claim C5.  In every reachable state each class has
    [0 <= available_slots <= max_slots] and
    [available_slots + booked_slots = max_slots]; every call of the
    service keeps this when it held before (in a table keyed by [id]);
    and [create_booking] leaves every [max_slots] as it was. *)
Theorem slots_invariant_kept :
  (forall db, reachable db -> slots_invariant db)
  /\ (forall db r env,
        primary_key db -> slots_invariant db -> slots_invariant (serve db r env))
  /\ (forall db booking_data env,
        map FitnessClass.max_slots
            (fitness_classes (serve db (CreateBooking booking_data) env))
        = map FitnessClass.max_slots (fitness_classes db)).
Proof.
  split; [|split].
  - intros db Hreach. apply (reachable_consistent db Hreach).
  - intros db r env. apply slots_invariant_serve.
  - intros db d env. cbn [serve].
    destruct (create_booking_store db d env)
      as [->|[c [_ [_ [_ [_ [_ [_ ->]]]]]]]]; cbn [committed Session_open];
      [reflexivity|].
    unfold booked. cbn [fitness_classes]. rewrite map_map. apply map_ext.
    intros r. unfold book_slot.
    destruct (FitnessClass.id r =? FitnessClass.id c); reflexivity.
Qed.

(** Claim C6.  Listing the classes, with or without a display timezone,
    writes nothing: the committed rows, and so the stored
    [class_datetime] of every class, are after the call what they were
    before it, whatever the session held.  The converted timestamps live
    in the objects of the session only. *)
Theorem listing_keeps_stored_datetimes s timezone env :
  committed (snd (get_all_classes timezone env s)) = committed s
  /\ map FitnessClass.class_datetime
         (fitness_classes (committed (snd (get_all_classes timezone env s))))
     = map FitnessClass.class_datetime (fitness_classes (committed s)).
Proof.
  rewrite keeps_get_all_classes. split; reflexivity.
Qed.


(** Claim C9.  Converting to a zone the database does not know raises
    [UnknownTimeZoneError] (the timezone error of the conversion); for a
    known zone the result denotes the same instant, a timestamp without
    offset being read in the reference timezone, and carries the offset
    the target zone has at that instant. *)
Theorem convert_timezone_result dt target :
  (zones target = None ->
   TimezoneManager.convert_timezone zones tz_manager dt target
   = Raise (UnknownTimeZoneError target))
  /\ (forall z, zones target = Some z ->
      exists r,
        TimezoneManager.convert_timezone zones tz_manager dt target = OK r
        /\ instant r = instant dt
        /\ tz r = Some {| tzname := zone z;
                          utcoffset := utcoffset_at_utc z (instant dt) |}
        /\ wall r = instant dt + utcoffset_at_utc z (instant dt)).
Proof.
  unfold TimezoneManager.convert_timezone, pytz_timezone, localize, astimezone,
         fromutc, instant.
  split.
  - intros Hz. rewrite Hz. destruct (tz dt); reflexivity.
  - intros z Hz. rewrite Hz.
    destruct (tz dt) as [o|]; (eexists; split; [reflexivity|]);
      cbn; (split; [lia|split; [reflexivity|lia]]).
Qed.

(* --------------------------------------------------------------- *)
(** *** [ORDER BY] sorts, and loses nothing *)

Lemma insert_by_permutation {A} (key : A -> Z) (x : A) (l : list A) :
  Permutation (insert_by key x l) (x :: l).
Proof.
  induction l as [|y l IH]; cbn [insert_by]; [reflexivity|].
  destruct (key y <=? key x).
  - rewrite IH. apply perm_swap.
  - reflexivity.
Qed.

Lemma order_by_from_permutation {A} (key : A -> Z) (l acc : list A) :
  Permutation (fold_left (fun acc x => insert_by key x acc) l acc) (acc ++ l).
Proof.
  revert acc. induction l as [|x l IH]; intros acc; cbn [fold_left].
  - rewrite app_nil_r. reflexivity.
  - etransitivity; [apply IH|].
    etransitivity; [apply Permutation_app_tail, insert_by_permutation|].
    apply Permutation_middle.
Qed.

Lemma order_by_permutation {A} (key : A -> Z) (l : list A) :
  Permutation (order_by key l) l.
Proof. apply (order_by_from_permutation key l []). Qed.

Lemma insert_by_ascending {A} (key : A -> Z) (x : A) (l : list A) :
  ascending key l -> ascending key (insert_by key x l).
Proof.
  unfold ascending. induction l as [|y l IH]; cbn [insert_by]; intros H.
  - repeat constructor.
  - inversion H as [|? ? Hl Hy]; subst.
    destruct (key y <=? key x) eqn:E.
    + apply Z.leb_le in E. constructor; [apply IH, Hl|].
      eapply Permutation_Forall; [symmetry; apply insert_by_permutation|].
      constructor; assumption.
    + apply Z.leb_gt in E. constructor; [exact H|].
      constructor; [lia|].
      eapply Forall_impl; [|exact Hy]. cbn. intros a Ha. lia.
Qed.

Lemma order_by_ascending {A} (key : A -> Z) (l : list A) :
  ascending key (order_by key l).
Proof.
  unfold order_by.
  assert (H : forall acc, ascending key acc ->
                ascending key (fold_left (fun acc x => insert_by key x acc) l acc)).
  { induction l as [|x l IH]; intros acc Hacc; cbn [fold_left]; [exact Hacc|].
    apply IH, insert_by_ascending, Hacc. }
  apply H. constructor.
Qed.

(* --------------------------------------------------------------- *)
(** *** Loading rows into a session *)

Lemma lookup_identity_absent (i : Z) (objs : list FitnessClass.t) :
  ~ In i (map FitnessClass.id objs) -> lookup_identity i objs = None.
Proof.
  unfold lookup_identity. induction objs as [|o objs IH]; cbn; intros H; [reflexivity|].
  destruct (FitnessClass.id o =? i) eqn:E.
  - apply Z.eqb_eq in E. exfalso. apply H. left. exact E.
  - apply IH. intros Hin. apply H. right. exact Hin.
Qed.

Lemma lookup_identity_present (o : FitnessClass.t) (objs : list FitnessClass.t) :
  NoDup (map FitnessClass.id objs) -> In o objs ->
  lookup_identity (FitnessClass.id o) objs = Some o.
Proof.
  unfold lookup_identity. induction objs as [|x objs IH]; cbn; intros Hnd Hin; [contradiction|].
  inversion Hnd as [|? ? Hnotin Hnd']; subst.
  destruct Hin as [->|Hin].
  - rewrite Z.eqb_refl. reflexivity.
  - destruct (FitnessClass.id x =? FitnessClass.id o) eqn:E.
    + apply Z.eqb_eq in E. exfalso. apply Hnotin. rewrite E. apply in_map, Hin.
    + apply IH; assumption.
Qed.

Lemma load_all_distinct db (pre rows : list FitnessClass.t) assigned :
  NoDup (map FitnessClass.id (pre ++ rows)) ->
  load_all rows (loaded db pre assigned)
  = (OK (map FitnessClass.id rows), loaded db (pre ++ rows) assigned).
Proof.
  revert pre. induction rows as [|r rows IH]; intros pre Hnd; cbn [load_all map].
  - rewrite app_nil_r. reflexivity.
  - unfold bind at 1. unfold load at 1. cbn [identity_map loaded].
    rewrite lookup_identity_absent.
    + change ({| committed := committed (loaded db pre assigned);
                 identity_map := (pre ++ [r])%list;
                 dirty := dirty (loaded db pre assigned);
                 new_classes := new_classes (loaded db pre assigned);
                 new_bookings := new_bookings (loaded db pre assigned) |})
        with (loaded db (pre ++ [r]) assigned).
      unfold bind. rewrite IH by (rewrite <- app_assoc; exact Hnd).
      rewrite <- app_assoc. reflexivity.
    + rewrite map_app in Hnd. cbn [map] in Hnd.
      apply NoDup_remove_2 in Hnd. intros Hin. apply Hnd.
      apply in_or_app. left. exact Hin.
Qed.

Lemma deref_all_loaded db (objs l : list FitnessClass.t) assigned :
  NoDup (map FitnessClass.id objs) -> incl l objs ->
  deref_all (map FitnessClass.id l) (loaded db objs assigned)
  = (OK l, loaded db objs assigned).
Proof.
  intros Hnd. induction l as [|o l IH]; intros Hincl; cbn [deref_all map]; [reflexivity|].
  unfold bind at 1. unfold deref at 1. cbn [identity_map loaded].
  rewrite (lookup_identity_present o objs Hnd) by (apply Hincl; left; reflexivity).
  unfold bind. rewrite IH by (intros x Hx; apply Hincl; right; exact Hx).
  reflexivity.
Qed.

Lemma NoDup_map_filter {A} (f : A -> Z) (p : A -> bool) (l : list A) :
  NoDup (map f l) -> NoDup (map f (filter p l)).
Proof.
  induction l as [|x l IH]; cbn; intros H; [constructor|].
  inversion H as [|? ? Hnotin Hnd]; subst.
  destruct (p x); cbn; [constructor|]; auto.
  intros Hin. apply Hnotin. apply in_map_iff in Hin. destruct Hin as [y [Hy Hin]].
  apply filter_In in Hin. rewrite <- Hy. apply in_map, Hin.
Qed.

Lemma upcoming_classes_distinct db env :
  primary_key db -> NoDup (map FitnessClass.id (upcoming_classes db env)).
Proof.
  intros Hpk. unfold upcoming_classes.
  eapply Permutation_NoDup.
  - apply Permutation_map. symmetry. apply order_by_permutation.
  - apply NoDup_map_filter, Hpk.
Qed.

(* --------------------------------------------------------------- *)
(** *** Listing the classes *)

Lemma get_all_classes_rows timezone env s :
  get_all_classes timezone env s
  = try_except
      (classes <- load_all (upcoming_classes (committed s) env) ;;
       match timezone with
       | Some tzname =>
           if PyStr.truthy tzname && negb (Nat.eqb (List.length classes) 0)
           then convert_each classes tzname
           else ret tt
       | None => ret tt
       end ;;;
       deref_all classes)
      (fun e => raise e) s.
Proof. reflexivity. Qed.

Lemma load_all_appends db (rows pre : list FitnessClass.t) assigned :
  exists extra,
    load_all rows (loaded db pre assigned)
    = (OK (map FitnessClass.id rows), loaded db (pre ++ extra) assigned).
Proof.
  revert pre. induction rows as [|r rows IH]; intros pre; cbn [load_all map].
  - exists []. rewrite app_nil_r. reflexivity.
  - unfold bind at 1. unfold load at 1. cbn [identity_map loaded].
    destruct (lookup_identity (FitnessClass.id r) pre) as [o|] eqn:E.
    + destruct (IH pre) as [extra Hextra]. exists extra.
      unfold bind. rewrite Hextra.
      unfold lookup_identity in E. apply find_some in E. destruct E as [_ E].
      apply Z.eqb_eq in E. rewrite E. reflexivity.
    + destruct (IH (pre ++ [r])%list) as [extra Hextra]. exists (r :: extra).
      change ({| committed := committed (loaded db pre assigned);
                 identity_map := (pre ++ [r])%list;
                 dirty := dirty (loaded db pre assigned);
                 new_classes := new_classes (loaded db pre assigned);
                 new_bookings := new_bookings (loaded db pre assigned) |})
        with (loaded db (pre ++ [r]) assigned).
      unfold bind. rewrite Hextra. rewrite <- app_assoc. reflexivity.
Qed.

Lemma convert_timezone_known (dt : datetime) (tzname : string) (z : tzinfo) :
  zones tzname = Some z ->
  TimezoneManager.convert_timezone zones tz_manager dt tzname
  = OK (fromutc z (instant dt)).
Proof.
  intros Hz. unfold TimezoneManager.convert_timezone, pytz_timezone, instant, localize,
    astimezone. rewrite Hz. destruct (tz dt); reflexivity.
Qed.

Lemma convert_timezone_unknown (dt : datetime) (tzname : string) :
  zones tzname = None ->
  TimezoneManager.convert_timezone zones tz_manager dt tzname
  = Raise (UnknownTimeZoneError tzname).
Proof.
  intros Hz. unfold TimezoneManager.convert_timezone, pytz_timezone. rewrite Hz.
  destruct (tz dt); reflexivity.
Qed.

Lemma assign_one_object (f : FitnessClass.t -> FitnessClass.t)
    (pre rows : list FitnessClass.t) (r : FitnessClass.t) :
  NoDup (map FitnessClass.id (pre ++ r :: rows)) ->
  map (fun o => if FitnessClass.id o =? FitnessClass.id r then f o else o)
      (pre ++ r :: rows)
  = (pre ++ f r :: rows)%list.
Proof.
  intros Hnd. rewrite map_app. cbn [map]. rewrite Z.eqb_refl.
  rewrite map_app in Hnd. cbn [map] in Hnd.
  pose proof (NoDup_remove_2 _ _ _ Hnd) as Hnotin.
  assert (Hsame : forall l, (forall o, In o l -> In (FitnessClass.id o)
                                (map FitnessClass.id pre ++ map FitnessClass.id rows)) ->
            map (fun o => if FitnessClass.id o =? FitnessClass.id r then f o else o) l = l).
  { induction l as [|o l IHl]; intros Hl; cbn [map]; [reflexivity|].
    destruct (FitnessClass.id o =? FitnessClass.id r) eqn:E.
    - apply Z.eqb_eq in E. exfalso. apply Hnotin. rewrite <- E. apply Hl. left. reflexivity.
    - rewrite IHl; [reflexivity|]. intros x Hx. apply Hl. right. exact Hx. }
  rewrite (Hsame pre), (Hsame rows); [reflexivity| |].
  - intros o Ho. apply in_or_app. right. apply in_map, Ho.
  - intros o Ho. apply in_or_app. left. apply in_map, Ho.
Qed.

Lemma convert_each_loaded db (z : tzinfo) (tzname : string)
    (rows pre : list FitnessClass.t) assigned :
  zones tzname = Some z ->
  NoDup (map FitnessClass.id (pre ++ rows)) ->
  convert_each (map FitnessClass.id rows) tzname (loaded db (pre ++ rows) assigned)
  = (OK tt,
     loaded db (pre ++ map (shown_in z) rows)
       (assigned ++ map (fun r => (FitnessClass.id r, class_datetime_attr)) rows)).
Proof.
  intros Hz. revert pre assigned.
  induction rows as [|r rows IH]; intros pre assigned Hnd; cbn [convert_each map].
  - rewrite !app_nil_r. reflexivity.
  - unfold bind at 1. unfold deref at 1. cbn [identity_map loaded].
    rewrite (lookup_identity_present r (pre ++ r :: rows) Hnd)
      by (apply in_or_app; right; left; reflexivity).
    unfold bind at 1. unfold lift at 1. rewrite (convert_timezone_known _ _ _ Hz).
    unfold bind at 1. unfold setattr at 1. cbn [identity_map dirty committed loaded
                                                 new_classes new_bookings].
    rewrite (assign_one_object _ pre rows r Hnd).
    change (FitnessClass.with_class_datetime
              (fromutc z (instant (FitnessClass.class_datetime r))) r)
      with (shown_in z r).
    change ({| committed := db; identity_map := (pre ++ shown_in z r :: rows)%list;
               dirty := (assigned ++ [(FitnessClass.id r, class_datetime_attr)])%list;
               new_classes := []; new_bookings := [] |})
      with (loaded db (pre ++ shown_in z r :: rows)
              (assigned ++ [(FitnessClass.id r, class_datetime_attr)])).
    replace (pre ++ shown_in z r :: rows)%list
      with ((pre ++ [shown_in z r]) ++ rows)%list by (rewrite <- app_assoc; reflexivity).
    rewrite IH.
    + rewrite <- !app_assoc. reflexivity.
    + rewrite <- app_assoc. cbn [app].
      rewrite map_app in *. cbn [map] in *. exact Hnd.
Qed.

Lemma upcoming_classes_spec db env c :
  In c (upcoming_classes db env)
  <-> In c (fitness_classes db)
      /\ FitnessClass.is_active c = true
      /\ wall (PyTime.now (TimezoneManager.default_tz tz_manager) (utcnow env))
         < wall (FitnessClass.class_datetime c).
Proof.
  unfold upcoming_classes.
  split.
  - intros H. apply (Permutation_in _ (order_by_permutation _ _)) in H.
    apply filter_In in H. destruct H as [Hin H]. unfold upcoming in H.
    apply andb_true_iff in H. destruct H as [Ha Hw]. apply Z.ltb_lt in Hw. auto.
  - intros [Hin [Ha Hw]].
    apply (Permutation_in _ (Permutation_sym (order_by_permutation _ _))).
    apply filter_In. split; [exact Hin|]. unfold upcoming.
    apply andb_true_iff. split; [exact Ha|apply Z.ltb_lt, Hw].
Qed.

Lemma get_all_classes_plain db env timezone :
  primary_key db ->
  (timezone = None \/ timezone = Some EmptyString) ->
  get_all_classes timezone env (Session_open db)
  = (OK (upcoming_classes db env), loaded db (upcoming_classes db env) []).
Proof.
  intros Hpk Htz. rewrite get_all_classes_rows.
  unfold try_except, bind at 1. cbn [committed Session_open].
  change (Session_open db) with (loaded db [] []).
  rewrite (load_all_distinct db [] _ [] (upcoming_classes_distinct db env Hpk)).
  cbn [app].
  assert (Hskip : match timezone with
                  | Some tzname =>
                      if PyStr.truthy tzname
                         && negb (Nat.eqb (List.length
                                  (map FitnessClass.id (upcoming_classes db env))) 0)
                      then convert_each (map FitnessClass.id (upcoming_classes db env)) tzname
                      else ret tt
                  | None => ret tt
                  end = ret tt).
  { destruct Htz as [->| ->]; reflexivity. }
  rewrite Hskip. unfold bind, ret.
  rewrite (deref_all_loaded db _ _ [] (upcoming_classes_distinct db env Hpk)
             (incl_refl _)).
  reflexivity.
Qed.

Lemma get_all_classes_converted db env tzname z :
  primary_key db ->
  PyStr.truthy tzname = true ->
  zones tzname = Some z ->
  get_all_classes (Some tzname) env (Session_open db)
  = (OK (map (shown_in z) (upcoming_classes db env)),
     loaded db (map (shown_in z) (upcoming_classes db env))
       (map (fun r => (FitnessClass.id r, class_datetime_attr))
            (upcoming_classes db env))).
Proof.
  intros Hpk Htruthy Hz. rewrite get_all_classes_rows.
  unfold try_except, bind at 1. cbn [committed Session_open].
  change (Session_open db) with (loaded db [] []).
  pose proof (upcoming_classes_distinct db env Hpk) as Hnd.
  rewrite (load_all_distinct db [] _ [] Hnd). cbn [app].
  rewrite Htruthy, length_map. cbn [andb].
  assert (Hids : map FitnessClass.id (map (shown_in z) (upcoming_classes db env))
                 = map FitnessClass.id (upcoming_classes db env)).
  { rewrite map_map. apply map_ext. reflexivity. }
  destruct (upcoming_classes db env) as [|r rows] eqn:Hrows.
  - reflexivity.
  - cbn [List.length Nat.eqb negb].
    unfold bind at 1.
    pose proof (convert_each_loaded db z tzname (r :: rows) [] [] Hz Hnd) as Hconv.
    cbn [app] in Hconv. rewrite Hconv.
    rewrite <- Hids.
    rewrite (deref_all_loaded db _ (map (shown_in z) (r :: rows)) _);
      [reflexivity| |apply incl_refl].
    rewrite Hids. exact Hnd.
Qed.

Lemma get_all_classes_unknown_zone db env tzname :
  PyStr.truthy tzname = true ->
  zones tzname = None ->
  upcoming_classes db env <> [] ->
  fst (get_all_classes (Some tzname) env (Session_open db))
  = Raise (UnknownTimeZoneError tzname).
Proof.
  intros Htruthy Hz Hne. rewrite get_all_classes_rows.
  unfold try_except, bind at 1. cbn [committed Session_open].
  destruct (upcoming_classes db env) as [|r rows] eqn:Hrows; [congruence|].
  cbn [load_all]. unfold bind at 1. unfold load at 1. cbn [identity_map Session_open].
  change (lookup_identity (FitnessClass.id r) []) with (@None FitnessClass.t).
  change ({| committed := committed (Session_open db); identity_map := ([] ++ [r])%list;
             dirty := dirty (Session_open db);
             new_classes := new_classes (Session_open db);
             new_bookings := new_bookings (Session_open db) |})
    with (loaded db [r] []).
  destruct (load_all_appends db rows [r] []) as [extra Hextra].
  unfold bind at 1. rewrite Hextra. unfold ret at 1. cbn [snd].
  rewrite Htruthy. cbn [map List.length Nat.eqb negb andb convert_each].
  unfold bind at 1. unfold bind at 1. unfold deref at 1.
  cbn [identity_map loaded app lookup_identity find]. rewrite Z.eqb_refl.
  unfold bind at 1. unfold lift at 1.
  rewrite (convert_timezone_unknown _ _ Hz). reflexivity.
Qed.

Lemma get_all_classes_nothing_upcoming timezone env s :
  upcoming_classes (committed s) env = [] ->
  get_all_classes timezone env s = (OK [], s).
Proof.
  intros Hrows. rewrite get_all_classes_rows, Hrows.
  destruct timezone as [tzname|]; [|reflexivity].
  cbn [load_all]. unfold try_except, bind, ret. cbn [List.length Nat.eqb negb].
  rewrite andb_false_r. reflexivity.
Qed.

Lemma instant_fromutc (z : tzinfo) (i : Z) : instant (fromutc z i) = i.
Proof. unfold instant, fromutc. cbn. lia. Qed.

(** Property X1.  With no timezone asked for (none, or the empty text), the listing is
    exactly the active classes whose stored start reads later than now,
    each once, in ascending order of start. *)
Theorem listing_returns_the_upcoming_classes db env timezone :
  primary_key db ->
  (timezone = None \/ timezone = Some EmptyString) ->
  exists l,
    fst (get_all_classes timezone env (Session_open db)) = OK l
    /\ (forall c,
          In c l <->
          In c (fitness_classes db)
          /\ FitnessClass.is_active c = true
          /\ wall (PyTime.now (TimezoneManager.default_tz tz_manager) (utcnow env))
             < wall (FitnessClass.class_datetime c))
    /\ NoDup (map FitnessClass.id l)
    /\ ascending (fun c => wall (FitnessClass.class_datetime c)) l.
Proof.
  intros Hpk Htz. exists (upcoming_classes db env).
  rewrite (get_all_classes_plain db env timezone Hpk Htz).
  split; [reflexivity|]. split; [apply upcoming_classes_spec|].
  split; [apply upcoming_classes_distinct, Hpk|apply order_by_ascending].
Qed.

(** Property X2.  A timezone name the database does not know is only noticed when
    there is something to convert: with no upcoming class the listing is
    empty and nothing is raised; with at least one, the call raises
    [UnknownTimeZoneError]. *)
Theorem listing_with_unknown_timezone db env tzname :
  PyStr.truthy tzname = true ->
  zones tzname = None ->
  ((forall c, In c (fitness_classes db) ->
              FitnessClass.is_active c = true ->
              wall (PyTime.now (TimezoneManager.default_tz tz_manager) (utcnow env))
              < wall (FitnessClass.class_datetime c) -> False) ->
   fst (get_all_classes (Some tzname) env (Session_open db)) = OK [])
  /\ ((exists c, In c (fitness_classes db)
                 /\ FitnessClass.is_active c = true
                 /\ wall (PyTime.now (TimezoneManager.default_tz tz_manager) (utcnow env))
                    < wall (FitnessClass.class_datetime c)) ->
      fst (get_all_classes (Some tzname) env (Session_open db))
      = Raise (UnknownTimeZoneError tzname)).
Proof.
  intros Htruthy Hz. split.
  - intros Hnone. rewrite get_all_classes_nothing_upcoming; [reflexivity|].
    cbn [committed Session_open].
    destruct (upcoming_classes db env) as [|c l] eqn:E; [reflexivity|].
    exfalso. assert (Hin : In c (upcoming_classes db env)) by (rewrite E; left; reflexivity).
    apply upcoming_classes_spec in Hin. destruct Hin as [H1 [H2 H3]].
    exact (Hnone c H1 H2 H3).
  - intros [c Hc]. apply (get_all_classes_unknown_zone db env tzname Htruthy Hz).
    apply upcoming_classes_spec in Hc. intros E. rewrite E in Hc. exact Hc.
Qed.

(** Property X3.  With a known timezone the listing has the same classes in the same
    order as without; each start is replaced by the same instant
    expressed in the target zone, and nothing else of the class changes. *)
Theorem listing_converts_every_start db env tzname z :
  primary_key db ->
  PyStr.truthy tzname = true ->
  zones tzname = Some z ->
  exists plain,
    fst (get_all_classes None env (Session_open db)) = OK plain
    /\ fst (get_all_classes (Some tzname) env (Session_open db))
       = OK (map (fun c => FitnessClass.with_class_datetime
                             (fromutc z (instant (FitnessClass.class_datetime c))) c)
                 plain)
    /\ forall c,
         instant (fromutc z (instant (FitnessClass.class_datetime c)))
         = instant (FitnessClass.class_datetime c)
         /\ tz (fromutc z (instant (FitnessClass.class_datetime c)))
            = Some {| tzname := zone z;
                      utcoffset := utcoffset_at_utc z
                                     (instant (FitnessClass.class_datetime c)) |}.
Proof.
  intros Hpk Htruthy Hz. exists (upcoming_classes db env).
  rewrite (get_all_classes_plain db env None Hpk (or_introl eq_refl)).
  rewrite (get_all_classes_converted db env tzname z Hpk Htruthy Hz).
  split; [reflexivity|]. split; [reflexivity|].
  intros c. split; [apply instant_fromutc|reflexivity].
Qed.

(* --------------------------------------------------------------- *)
(** *** Looking bookings up by e-mail *)

Lemma strongly_sorted_weaken {A} (R R' : A -> A -> Prop) (l : list A) :
  StronglySorted R l -> (forall a b, R a b -> R' a b) -> StronglySorted R' l.
Proof.
  intros H Himp. induction H as [|a l Hl IH Ha]; constructor; [exact IH|].
  eapply Forall_impl; [|exact Ha]. intros b. apply Himp.
Qed.

(** Property X4.  The lookup never raises and writes nothing; it returns the stored
    bookings whose e-mail is exactly the one asked for, whatever their
    status, each once, the newest first. *)
Theorem bookings_by_email_newest_first client_email s :
  snd (get_bookings_by_email client_email s) = s
  /\ exists l,
       fst (get_bookings_by_email client_email s) = OK l
       /\ Permutation l (filter (fun b => (Booking.client_email b =? client_email)%string)
                                (bookings (committed s)))
       /\ (forall b, In b l <->
                     In b (bookings (committed s)) /\ Booking.client_email b = client_email)
       /\ StronglySorted
            (fun a b => wall (Booking.created_at b) <= wall (Booking.created_at a)) l.
Proof.
  split; [reflexivity|].
  eexists. split; [reflexivity|]. split; [apply order_by_permutation|]. split.
  - intros b. split.
    + intros H. apply (Permutation_in _ (order_by_permutation _ _)) in H.
      apply filter_In in H. destruct H as [Hin H]. apply String.eqb_eq in H. auto.
    + intros [Hin H].
      apply (Permutation_in _ (Permutation_sym (order_by_permutation _ _))).
      apply filter_In. split; [exact Hin|apply String.eqb_eq, H].
  - pose proof (order_by_ascending (fun b => - wall (Booking.created_at b))
                  (filter (fun b => (Booking.client_email b =? client_email)%string)
                          (bookings (committed s)))) as H.
    unfold ascending in H.
    apply (strongly_sorted_weaken _ _ _ H). intros a b Hab. lia.
Qed.

(* --------------------------------------------------------------- *)
(** *** Seeding the sample classes *)

Lemma create_sample_classes_not_empty env s :
  fitness_classes (committed s) <> [] ->
  create_sample_classes env s = (OK tt, s).
Proof.
  intros Hne. unfold create_sample_classes, try_except.
  destruct (fitness_classes (committed s)) as [|row rows]; [congruence|]. reflexivity.
Qed.

Lemma create_sample_classes_seeds db env :
  fitness_classes db = [] ->
  commit_fault env = None ->
  create_sample_classes env (Session_open db)
  = (OK tt, Session_open {| fitness_classes := seeded env; bookings := bookings db |}).
Proof.
  intros Hnil Hf. unfold create_sample_classes, try_except.
  cbn [committed Session_open]. rewrite Hnil.
  unfold bind, lift, commit. cbn. rewrite Hf, Hnil. reflexivity.
Qed.

Lemma create_sample_classes_commit_fails db env msg :
  fitness_classes db = [] ->
  commit_fault env = Some msg ->
  create_sample_classes env (Session_open db)
  = (Raise (OperationalError msg), Session_open db).
Proof.
  intros Hnil Hf. unfold create_sample_classes, try_except.
  cbn [committed Session_open]. rewrite Hnil.
  unfold bind, lift, commit. cbn. rewrite Hf. reflexivity.
Qed.

(** Property X5.  Seeding is done once: a table that holds any class is left alone
    (whatever the session holds), and after a seeding whose commit
    succeeded a second call changes nothing. *)
Theorem seeding_happens_once :
  (forall env s, fitness_classes (committed s) <> [] ->
                 create_sample_classes env s = (OK tt, s))
  /\ (forall db env env',
        commit_fault env = None ->
        serve (serve db CreateSampleClasses env) CreateSampleClasses env'
        = serve db CreateSampleClasses env).
Proof.
  split; [apply create_sample_classes_not_empty|].
  intros db env env' Hf. cbn [serve].
  destruct (fitness_classes db) as [|row rows] eqn:Hrows.
  - rewrite (create_sample_classes_seeds db env Hrows Hf). cbn [snd committed Session_open].
    rewrite create_sample_classes_not_empty; [reflexivity|].
    cbn. unfold seeded. cbn. discriminate.
  - assert (Hne : fitness_classes (committed (Session_open db)) <> [])
      by (cbn; rewrite Hrows; discriminate).
    rewrite (create_sample_classes_not_empty env _ Hne). cbn [snd committed Session_open].
    rewrite (create_sample_classes_not_empty env' _ Hne). reflexivity.
Qed.



(** Property X7.  When the commit of the seeding fails, the call rolls back, leaves
    the table empty, and raises the error of the store itself, not
    wrapped in a domain error. *)
Theorem seeding_failure_is_raised_as_it_is db env msg :
  fitness_classes db = [] ->
  commit_fault env = Some msg ->
  create_sample_classes env (Session_open db)
  = (Raise (OperationalError msg), Session_open db)
  /\ is_domain_error (OperationalError msg) = false.
Proof.
  intros Hnil Hf. split; [apply create_sample_classes_commit_fails; assumption|reflexivity].
Qed.

(** Property X8.  The classes that [create_sample_classes] stores cannot
    be booked: the store keeps their start without offset, so every
    later call of [create_booking] for class 1, 2 or 3, at any hour and
    for any client, stops at the timing check, reports
    [InvalidBookingData] with the text of the [TypeError], and writes
    nothing. *)
Theorem seeded_classes_cannot_be_booked db env env' booking_data :
  fitness_classes db = [] ->
  commit_fault env = None ->
  In (BookingCreate.class_id booking_data) [1; 2; 3] ->
  create_booking booking_data env'
    (Session_open (serve db CreateSampleClasses env))
  = (Raise (InvalidBookingDataException
              "Failed to create booking: can't compare offset-naive and offset-aware datetimes"
              []),
     Session_open (serve db CreateSampleClasses env)).
Proof.
  intros Hnil Hf Hid. cbn [serve].
  rewrite (create_sample_classes_seeds db env Hnil Hf). cbn [snd committed Session_open].
  destruct Hid as [Hid|[Hid|[Hid|[]]]];
    (eapply create_booking_offset_free;
     [rewrite <- Hid; reflexivity
     |rewrite <- Hid; unfold active_class, seeded; cbn; reflexivity
     |reflexivity]).
Qed.

(* --------------------------------------------------------------- *)
(** *** The timezone manager *)

(** Property X9.  Conversions compose: converting the result of a conversion gives
    what converting the original would give, so a detour through another
    zone changes nothing, and converting twice to the same zone is the
    same as once. *)
Theorem conversion_through_another_zone (dt r : datetime) (a b : string) :
  TimezoneManager.convert_timezone zones tz_manager dt a = OK r ->
  TimezoneManager.convert_timezone zones tz_manager r b
  = TimezoneManager.convert_timezone zones tz_manager dt b
  /\ TimezoneManager.convert_timezone zones tz_manager r a = OK r.
Proof.
  intros Ha.
  destruct (zones a) as [za|] eqn:Hza.
  - rewrite (convert_timezone_known dt a za Hza) in Ha. inversion Ha; subst r.
    assert (Hi : instant (fromutc za (instant dt)) = instant dt) by apply instant_fromutc.
    split.
    + destruct (zones b) as [zb|] eqn:Hzb.
      * rewrite !(convert_timezone_known _ b zb Hzb), Hi. reflexivity.
      * rewrite !(convert_timezone_unknown _ b Hzb). reflexivity.
    + rewrite (convert_timezone_known _ a za Hza), Hi. reflexivity.
  - rewrite (convert_timezone_unknown dt a Hza) in Ha. discriminate.
Qed.

Lemma get_current_time_cases (clock : Z) (timezone : option string) :
  (exists z, TimezoneManager.get_current_time zones tz_manager clock timezone
             = OK (PyTime.now z clock))
  \/ (exists n, timezone = Some n /\ PyStr.truthy n = true /\ zones n = None
                /\ TimezoneManager.get_current_time zones tz_manager clock timezone
                   = Raise (UnknownTimeZoneError n)).
Proof.
  unfold TimezoneManager.get_current_time, pytz_timezone.
  destruct timezone as [n|]; [|left; eexists; reflexivity].
  destruct (PyStr.truthy n) eqn:Ht; [|left; eexists; reflexivity].
  destruct (zones n) as [z|] eqn:Hz; [left; eexists; reflexivity|].
  right. exists n. auto.
Qed.

(** Property X10.  The current time denotes the instant of the clock whatever zone is
    asked for; "one day ahead" is that reading plus 24 hours with the same
    offset, hence the instant 24 hours later; both raise
    [UnknownTimeZoneError], and only that, for a non-empty name the
    database does not know. *)
Theorem one_day_ahead_is_24_hours_later (clock : Z) (timezone : option string) :
  (forall d,
      TimezoneManager.get_current_time zones tz_manager clock timezone = OK d ->
      instant d = clock
      /\ exists d',
           TimezoneManager.get_one_day_aheadtime zones tz_manager clock timezone = OK d'
           /\ wall d' = wall d + day /\ tz d' = tz d /\ instant d' = clock + day)
  /\ (forall e,
        TimezoneManager.get_current_time zones tz_manager clock timezone = Raise e ->
        TimezoneManager.get_one_day_aheadtime zones tz_manager clock timezone = Raise e
        /\ exists n, timezone = Some n /\ zones n = None /\ e = UnknownTimeZoneError n).
Proof.
  unfold TimezoneManager.get_one_day_aheadtime.
  destruct (get_current_time_cases clock timezone) as [[z Hz]|[n [Hn [_ [Hzn Hr]]]]].
  - rewrite Hz. split.
    + intros d Hd. inversion Hd; subst d. split; [apply instant_fromutc|].
      eexists. split; [reflexivity|].
      unfold add_days, instant, PyTime.now, fromutc. cbn.
      split; [reflexivity|]. split; [reflexivity|unfold day; lia].
    + intros e He. discriminate.
  - rewrite Hr. split.
    + intros d Hd. discriminate.
    + intros e He. inversion He; subst e. split; [reflexivity|]. exists n. auto.
Qed.

(** Property X11.  [localize_datetime] agrees with [convert_timezone] on a timestamp
    that carries an offset; on one that does not it keeps the reading and
    attaches the offset the requested zone has at that reading, where
    [convert_timezone] would read it in the reference timezone. *)
Theorem localize_keeps_the_reading (dt : datetime) (n : string) :
  PyStr.truthy n = true ->
  (tz dt <> None ->
   TimezoneManager.localize_datetime zones tz_manager dt (Some n)
   = TimezoneManager.convert_timezone zones tz_manager dt n)
  /\ (tz dt = None ->
      forall z, zones n = Some z ->
      TimezoneManager.localize_datetime zones tz_manager dt (Some n)
      = OK {| wall := wall dt;
              tz := Some {| tzname := zone z;
                            utcoffset := utcoffset_at_wall z (wall dt) |} |})
  /\ (zones n = None ->
      TimezoneManager.localize_datetime zones tz_manager dt (Some n)
      = Raise (UnknownTimeZoneError n)).
Proof.
  intros Ht.
  unfold TimezoneManager.localize_datetime, TimezoneManager.convert_timezone,
    pytz_timezone, localize. rewrite Ht.
  split; [|split].
  - intros Haware. destruct (tz dt) as [o|]; [|congruence].
    destruct (zones n); reflexivity.
  - intros Hnaive z Hz. rewrite Hz, Hnaive. reflexivity.
  - intros Hz. rewrite Hz. reflexivity.
Qed.

(* --------------------------------------------------------------- *)
(** *** [create_booking] on any session *)

Lemma commit_outcome env s :
  (exists e, commit env s = (Raise e, s))
  \/ (exists inserted db, commit env s = (OK inserted, Session_open db)).
Proof.
  unfold commit. destruct (commit_fault env); [left; eexists; reflexivity|].
  destruct (insert_bookings _ _ _) as [[rows inserted]|e].
  - right. do 2 eexists. reflexivity.
  - left. eexists. reflexivity.
Qed.

Lemma refresh_outcome env i s :
  snd (refresh env i s) = s.
Proof.
  unfold refresh. destruct (refresh_fault env); [reflexivity|].
  destruct (find _ _); reflexivity.
Qed.

Lemma load_ok row s : exists o s', load row s = (OK o, s').
Proof.
  unfold load. destruct (lookup_identity _ _); do 2 eexists; reflexivity.
Qed.

Lemma domain_error_status (e : exn) :
  is_domain_error e = true ->
  status_code (create_booking_except e) = 404
  \/ status_code (create_booking_except e) = 409
  \/ status_code (create_booking_except e) = 400.
Proof. intros He. destruct e; try discriminate; cbn; auto. Qed.

Lemma create_booking_ends_clean booking_data env s :
  (exists e db, create_booking booking_data env s = (Raise e, Session_open db)
                /\ is_domain_error e = true)
  \/ (exists b db, create_booking booking_data env s = (OK b, Session_open db)).
Proof.
  assert (Hhandler : forall e s1,
    exists e', (rollback ;;;
                if is_domain_error e then raise e
                else raise (InvalidBookingDataException
                              ("Failed to create booking: " ++ str e)%string [])) s1
               = (@Raise Booking.t e', Session_open (committed s1))
               /\ is_domain_error e' = true).
  { intros e s1. unfold bind, rollback. destruct (is_domain_error e) eqn:E.
    - exists e. split; [reflexivity|exact E].
    - eexists. split; reflexivity. }
  unfold create_booking, try_except.
    match goal with
    | |- context [match ?body s with _ => _ end] => set (B := body)
    end.
    assert (Hbody : forall b s', B s = (OK b, s') -> exists db, s' = Session_open db).
    { intros b s' HB. unfold B, create_booking_body, bind at 1, get_class_by_id in HB.
      destruct (negb (sqlite_integer (BookingCreate.class_id booking_data)));
        [discriminate|].
      destruct (active_class (committed s) (BookingCreate.class_id booking_data)) as [row|];
        [|discriminate].
      destruct (load_ok row s) as [o [s1 Hload]]. rewrite Hload in HB.
      unfold bind at 1, lift in HB.
      destruct (FitnessClass.is_past tz_manager (utcnow env) o) as [[|]|e];
        [discriminate| |discriminate].
      destruct (FitnessClass.available_slots o <=? 0); [discriminate|].
      unfold bind at 1, existing_booking in HB.
      destruct (confirmed_booking (committed s1) _ _); [discriminate|].
      unfold bind at 1, setattr in HB. unfold bind at 1, add_booking in HB.
      unfold bind at 1 in HB.
      match type of HB with
      | context [commit env ?s2] =>
          destruct (commit_outcome env s2) as [[e He]|[ins [db He]]]
      end; rewrite He in HB; [discriminate|].
      destruct (last_inserted ins) as [r|]; [|discriminate].
      pose proof (refresh_outcome env (Booking.id r) (Session_open db)) as Hr.
      rewrite HB in Hr. cbn [snd] in Hr. exists db. exact Hr. }
    destruct (B s) as [[b|e] s1] eqn:HB.
    - right. destruct (Hbody b s1 eq_refl) as [db ->]. do 2 eexists. reflexivity.
    - left. destruct (Hhandler e s1) as [e' [He' Hd]]. rewrite He'.
      do 2 eexists. split; [reflexivity|exact Hd].
Qed.

(** Property X12.  Whatever the session held, a call of [create_booking] ends with a
    session that has nothing loaded and nothing pending, and the only
    exceptions that leave it are the four domain errors; so the route
    answers a failed call with 404, 409 or 400, never through its
    catch-all 500 handler. *)
Theorem create_booking_raises_domain_errors_only booking_data env s :
  (exists db, snd (create_booking booking_data env s) = Session_open db)
  /\ (forall e, fst (create_booking booking_data env s) = Raise e ->
        is_domain_error e = true
        /\ (status_code (create_booking_except e) = 404
            \/ status_code (create_booking_except e) = 409
            \/ status_code (create_booking_except e) = 400)).
Proof.
  destruct (create_booking_ends_clean booking_data env s)
    as [[e [db [H Hd]]]|[b [db H]]]; rewrite H; cbn [fst snd].
  - split; [eexists; reflexivity|]. intros e' He'. inversion He'; subst e'.
    split; [exact Hd|apply domain_error_status, Hd].
  - split; [eexists; reflexivity|]. intros e He. discriminate.
Qed.

(* --------------------------------------------------------------- *)
(** *** The booking reference *)

(** Property X14.  Every reference [_generate_booking_reference] makes
    has the fixed format, whatever the random bytes: [FB] followed by
    eight characters among [0-9A-F], ten characters in all. *)
Theorem generated_reference_has_the_fixed_format env :
  reference_format (_generate_booking_reference env) = true
  /\ String.length (_generate_booking_reference env) = 10%nat
  /\ substring 0 2 (_generate_booking_reference env) = "FB".
Proof.
  split; [apply generated_reference_format|].
  unfold _generate_booking_reference, hex.
  change ("FB" ++ ?s)%string with (String "F" (String "B" s)).
  split.
  - cbn [String.length].
    rewrite upper_length, substring_prefix_length by (rewrite hex_digits_length; lia).
    reflexivity.
  - cbn [substring]. reflexivity.
Qed.

(* --------------------------------------------------------------- *)
(** *** The routes *)

Lemma validate_future_datetime_aware (clock : Z) (v : datetime) :
  tz v <> None ->
  FitnessClassBase.validate_future_datetime local_tz clock v
  = Raise (TypeError "can't compare offset-naive and offset-aware datetimes").
Proof.
  unfold FitnessClassBase.validate_future_datetime, datetime_le, now_naive, naive.
  cbn [tz]. destruct (tz v); [reflexivity|congruence].
Qed.

Lemma class_response_aware (clock : Z) (d : FitnessClassResponse.t) :
  tz (FitnessClassResponse.class_datetime d) <> None ->
  FitnessClassResponse.init local_tz clock d
  = Raised (TypeError "can't compare offset-naive and offset-aware datetimes").
Proof.
  intros H. unfold FitnessClassResponse.init.
  rewrite (validate_future_datetime_aware clock _ H). reflexivity.
Qed.

Lemma converted_is_aware (dt r : datetime) (tzname : string) :
  TimezoneManager.convert_timezone zones tz_manager dt tzname = OK r -> tz r <> None.
Proof.
  intros H. destruct (zones tzname) as [z|] eqn:Hz.
  - rewrite (convert_timezone_known dt tzname z Hz) in H. inversion H. discriminate.
  - rewrite (convert_timezone_unknown dt tzname Hz) in H. discriminate.
Qed.

Lemma booking_response_never_built env db b : booking_response env db b = None.
Proof.
  unfold booking_response.
  destruct (find _ (fitness_classes db)) as [fc|]; [|reflexivity].
  destruct (TimezoneManager.convert_timezone zones tz_manager
              (FitnessClass.class_datetime fc) settings.DEFAULT_TIMEZONE)
    as [start|e] eqn:Hconv; [|reflexivity].
  unfold BookingResponse.init.
  destruct (BookingResponse.field_errors email_validator _) as [errors em].
  cbn [BookingResponse.fitness_class BookingResponse.of_booking].
  rewrite class_response_aware; [reflexivity|].
  cbn [FitnessClassResponse.class_datetime FitnessClassResponse.of_class].
  apply (converted_is_aware _ _ _ Hconv).
Qed.

(** Property X16.  [POST /book] never answers with the booking: a call that the service
    refuses is answered with 404, 409 or 400 and the service's message;
    a call that the service carries out is answered with the generic 500,
    the response model refusing the converted start of the class, while
    the booking stays committed. *)
Theorem booking_route_never_returns_the_booking booking_data env db :
  exists answer,
    fst (create_booking_route booking_data env db) = inl answer
    /\ (forall e, fst (create_booking booking_data env (Session_open db)) = Raise e ->
          answer = create_booking_except e
          /\ (status_code answer = 404 \/ status_code answer = 409
              \/ status_code answer = 400))
    /\ (forall b, fst (create_booking booking_data env (Session_open db)) = OK b ->
          answer = create_http_exception 500 "Failed to create booking" []
          /\ In b (bookings (snd (create_booking_route booking_data env db)))).
Proof.
  unfold create_booking_route.
  pose proof (create_booking_returns db booking_data env) as Hret.
  assert (Hdom : forall e, fst (create_booking booking_data env (Session_open db)) = Raise e ->
                           is_domain_error e = true).
  { intros e He.
    destruct (create_booking_ends_clean booking_data env (Session_open db))
      as [[e' [db' [H Hd]]]|[b [db' H]]]; rewrite H in He; cbn [fst] in He;
      [inversion He; subst; exact Hd|discriminate]. }
  destruct (create_booking booking_data env (Session_open db)) as [[b|e] s] eqn:Hcall;
    cbn [fst snd] in *.
  - rewrite booking_response_never_built. eexists. split; [reflexivity|]. split.
    + intros e He. discriminate.
    + intros b' Hb'. inversion Hb'; subst b'. split; [reflexivity|].
      cbn [snd]. apply (Hret b eq_refl).
  - eexists. split; [reflexivity|]. split.
    + intros e' He'. inversion He'; subst e'. split; [reflexivity|]. apply domain_error_status, Hdom. reflexivity.
    + intros b Hb. discriminate.
Qed.

Lemma class_responses_aware env (c : FitnessClass.t) (rest : list FitnessClass.t) :
  tz (FitnessClass.class_datetime c) <> None ->
  class_responses env (c :: rest)
  = Raised (TypeError "can't compare offset-naive and offset-aware datetimes").
Proof.
  intros H. cbn [class_responses]. rewrite class_response_aware; [reflexivity|exact H].
Qed.

(** Property X17.  [GET /classes] never writes.  With no upcoming class it answers with
    the empty list, whatever the timezone; with at least one and a
    non-empty timezone (the default is one) it answers with the generic
    500: the name is unknown, or the name is known and the response model
    refuses the converted start. *)
Theorem classes_route_answers timezone env db :
  snd (get_classes timezone env db) = db
  /\ ((forall c, In c (fitness_classes db) ->
                 FitnessClass.is_active c = true ->
                 wall (PyTime.now (TimezoneManager.default_tz tz_manager) (utcnow env))
                 < wall (FitnessClass.class_datetime c) -> False) ->
      fst (get_classes timezone env db) = inr [])
  /\ (primary_key db ->
      PyStr.truthy timezone = true ->
      (exists c, In c (fitness_classes db)
                 /\ FitnessClass.is_active c = true
                 /\ wall (PyTime.now (TimezoneManager.default_tz tz_manager) (utcnow env))
                    < wall (FitnessClass.class_datetime c)) ->
      fst (get_classes timezone env db)
      = inl (create_http_exception 500 "Failed to retrieve classes" [])).
Proof.
  split; [|split].
  - unfold get_classes.
    pose proof (keeps_get_all_classes (Some timezone) env (Session_open db)) as Hk.
    destruct (get_all_classes (Some timezone) env (Session_open db)) as [[l|e] s].
    + cbn [snd committed Session_open] in Hk.
      destruct (class_responses env l); exact Hk.
    + exact Hk.
  - intros Hnone. unfold get_classes.
    rewrite get_all_classes_nothing_upcoming; [reflexivity|].
    cbn [committed Session_open].
    destruct (upcoming_classes db env) as [|c l] eqn:E; [reflexivity|].
    exfalso. assert (Hin : In c (upcoming_classes db env)) by (rewrite E; left; reflexivity).
    apply upcoming_classes_spec in Hin. destruct Hin as [H1 [H2 H3]].
    exact (Hnone c H1 H2 H3).
  - intros Hpk Htruthy [c Hc]. unfold get_classes.
    assert (Hne : upcoming_classes db env <> []).
    { apply upcoming_classes_spec in Hc. intros E. rewrite E in Hc. exact Hc. }
    destruct (zones timezone) as [z|] eqn:Hz.
    + rewrite (get_all_classes_converted db env timezone z Hpk Htruthy Hz).
      destruct (upcoming_classes db env) as [|r rows]; [congruence|].
      cbn [map]. rewrite class_responses_aware; [reflexivity|].
      unfold shown_in. cbn. discriminate.
    + pose proof (get_all_classes_unknown_zone db env timezone Htruthy Hz Hne) as Hraise.
      destruct (get_all_classes (Some timezone) env (Session_open db)) as [[l|e] s];
        [discriminate|reflexivity].
Qed.

(** Property X18.  [GET /bookings] never writes.  For an e-mail without bookings it
    answers with the empty list and a count of 0; for an e-mail that has
    any booking it answers with the generic 500, no booking being
    renderable. *)
Theorem bookings_route_answers client_email env db :
  snd (get_bookings client_email env db) = db
  /\ ((forall b, In b (bookings db) -> Booking.client_email b <> client_email) ->
      fst (get_bookings client_email env db)
      = inr {| list_bookings := []; total_count := 0; list_client_email := client_email |})
  /\ ((exists b, In b (bookings db) /\ Booking.client_email b = client_email) ->
      fst (get_bookings client_email env db)
      = inl (create_http_exception 500 "Failed to retrieve bookings" [])).
Proof.
  unfold get_bookings.
  change (get_bookings_by_email client_email (Session_open db))
    with (@OK (list Booking.t)
            (order_by (fun b => - wall (Booking.created_at b))
               (filter (fun b => (Booking.client_email b =? client_email)%string)
                       (bookings db))),
          Session_open db).
  cbn [committed Session_open].
  set (found := order_by _ _).
  assert (Hfound : forall b, In b found <->
                     In b (bookings db) /\ Booking.client_email b = client_email).
  { intros b. unfold found. split.
    - intros H. apply (Permutation_in _ (order_by_permutation _ _)) in H.
      apply filter_In in H. destruct H as [Hin H]. apply String.eqb_eq in H. auto.
    - intros [Hin H].
      apply (Permutation_in _ (Permutation_sym (order_by_permutation _ _))).
      apply filter_In. split; [exact Hin|apply String.eqb_eq, H]. }
  split; [|split].
  - destruct (booking_responses env db found); reflexivity.
  - intros Hnone. destruct found as [|b l]; [reflexivity|].
    exfalso. destruct (proj1 (Hfound b) (or_introl eq_refl)) as [Hin He].
    exact (Hnone b Hin He).
  - intros [b Hb]. apply Hfound in Hb.
    destruct found as [|b' l]; [contradiction|].
    cbn [booking_responses]. rewrite booking_response_never_built. reflexivity.
Qed.

End BookingService.

(* ================================================================= *)
(** ** Text: what [strip] and [title] do *)

Lemma lstrip_splits (s : string) :
  exists blanks,
    s = (blanks ++ PyStr.lstrip s)%string
    /\ forallb PyStr.isspace (list_ascii_of_string blanks) = true
    /\ match PyStr.lstrip s with
       | String c _ => PyStr.isspace c = false
       | EmptyString => True
       end.
Proof.
  induction s as [|c s [blanks [Heq [Hall Hhead]]]].
  - exists EmptyString. repeat split.
  - cbn [PyStr.lstrip]. destruct (PyStr.isspace c) eqn:E.
    + exists (String c blanks). cbn. rewrite E, Hall, <- Heq. repeat split. exact Hhead.
    + exists EmptyString. cbn. repeat split. exact E.
Qed.

Lemma title_from_length (cased : bool) (s : string) :
  String.length (PyStr.title_from cased s) = String.length s.
Proof.
  revert cased. induction s as [|c s IH]; intros cased; cbn; [reflexivity|].
  rewrite IH. reflexivity.
Qed.

Lemma title_length (s : string) : PyStr.len (PyStr.title s) = PyStr.len s.
Proof. unfold PyStr.len, PyStr.title. rewrite title_from_length. reflexivity. Qed.

Lemma truthy_false (s : string) : PyStr.truthy s = false <-> s = EmptyString.
Proof. destruct s; cbn; split; congruence. Qed.

Example strip_john : PyStr.strip "  John Doe  " = "John Doe".
Proof. reflexivity. Qed.

Example title_john : PyStr.title "john o'NEIL-smith 3rd" = "John O'Neil-Smith 3Rd".
Proof. reflexivity. Qed.

(* ================================================================= *)
(** ** The request schema *)

Lemma validate_cases (email_validator : string -> option string) (body : BookingCreate.t) :
  BookingCreate.validate email_validator body =
  match (BookingCreate.check_class_id (BookingCreate.class_id body)
         ++ fst (BookingCreate.check_client_name (BookingCreate.client_name body))
         ++ fst (BookingCreate.check_client_email email_validator
                   (BookingCreate.client_email body))
         ++ BookingCreate.check_notes (BookingCreate.notes body))%list with
  | [] => OK {| BookingCreate.class_id := BookingCreate.class_id body;
                BookingCreate.client_name :=
                  snd (BookingCreate.check_client_name (BookingCreate.client_name body));
                BookingCreate.client_email :=
                  snd (BookingCreate.check_client_email email_validator
                         (BookingCreate.client_email body));
                BookingCreate.notes := BookingCreate.notes body |}
  | errors => Raise (ValidationError errors)
  end.
Proof.
  unfold BookingCreate.validate.
  destruct (BookingCreate.check_client_name _) as [e2 nm].
  destruct (BookingCreate.check_client_email _ _) as [e3 em].
  reflexivity.
Qed.

Lemma check_client_name_cases (v : string) :
  (exists et, BookingCreate.check_client_name v = ([("client_name", et)], v)
              /\ (PyStr.strip v = EmptyString \/ PyStr.len v < 2 \/ 100 < PyStr.len v))
  \/ (BookingCreate.check_client_name v = ([], PyStr.title (PyStr.strip v))
      /\ PyStr.strip v <> EmptyString /\ 2 <= PyStr.len v <= 100).
Proof.
  unfold BookingCreate.check_client_name, BookingCreate.validate_client_name.
  destruct (PyStr.len v <? 2) eqn:E1.
  - left. eexists. split; [reflexivity|]. apply Z.ltb_lt in E1. auto.
  - destruct (100 <? PyStr.len v) eqn:E2.
    + left. eexists. split; [reflexivity|]. apply Z.ltb_lt in E2. auto.
    + apply Z.ltb_ge in E1. apply Z.ltb_ge in E2.
      destruct (PyStr.truthy (PyStr.strip v)) eqn:E3; cbn [negb].
      * right. split; [reflexivity|]. split; [|lia].
        intros H. rewrite H in E3. discriminate.
      * left. eexists. split; [reflexivity|]. left. apply truthy_false, E3.
Qed.

(** Claim C8, as amended.  The name is stripped of surrounding blanks.
    When nothing is left the body is refused by the schema: building the
    [BookingCreate] raises pydantic's [ValidationError] with an entry for
    [client_name] (the validator's [ValueError], or a length error), which
    is not one of the domain errors, and the service is never entered.
    When the body is accepted, the name handed on, and stored by a
    successful booking, is the title-cased form of the stripped input. *)
Theorem client_name_normalised (email_validator : string -> option string)
    (body : BookingCreate.t) :
  (PyStr.strip (BookingCreate.client_name body) = EmptyString ->
   exists errors et,
     BookingCreate.validate email_validator body = Raise (ValidationError errors)
     /\ In ("client_name", et) errors)
  /\ (forall e, BookingCreate.validate email_validator body = Raise e ->
                exists errors, e = ValidationError errors)
  /\ (forall booking_data,
        BookingCreate.validate email_validator body = OK booking_data ->
        BookingCreate.client_name booking_data
        = PyStr.title (PyStr.strip (BookingCreate.client_name body))
        /\ PyStr.strip (BookingCreate.client_name body) <> EmptyString
        /\ forall tz_manager db env b,
             fst (create_booking tz_manager booking_data env (Session_open db)) = OK b ->
             Booking.client_name b
             = PyStr.title (PyStr.strip (BookingCreate.client_name body))
             /\ In b (bookings (committed
                        (snd (create_booking tz_manager booking_data env
                                (Session_open db)))))).
Proof.
  rewrite validate_cases.
  destruct (check_client_name_cases (BookingCreate.client_name body))
    as [[et [Hck Hwhy]]|[Hck [Hne Hlen]]]; rewrite Hck; cbn [fst snd].
  - split; [|split].
    + intros _.
      destruct (BookingCreate.check_class_id (BookingCreate.class_id body)) as [|x l] eqn:E1.
      * cbn. do 2 eexists. split; [reflexivity|]. left. reflexivity.
      * cbn. do 2 eexists. split; [reflexivity|].
        right. apply in_or_app. right. left. reflexivity.
    + intros e.
      destruct (BookingCreate.check_class_id (BookingCreate.class_id body)) as [|x l];
        cbn; intros H; inversion H; eexists; reflexivity.
    + intros d.
      destruct (BookingCreate.check_class_id (BookingCreate.class_id body)) as [|x l];
        cbn; discriminate.
  - split; [|split].
    + intros H. contradiction.
    + intros e. destruct (_ ++ _)%list; intros H; inversion H. eexists; reflexivity.
    + intros d. destruct (_ ++ _)%list; intros H; inversion H; subst. cbn.
      split; [reflexivity|]. split; [exact Hne|].
      intros tz_manager db env b Hok.
      destruct (create_booking_returns tz_manager db _ env b Hok) as [-> Hin].
      split; [reflexivity|exact Hin].
Qed.

(* ================================================================= *)
(** ** The properties on the small installation *)

Import Demo.


(** Claim C4, where the code departs from it.  A class row whose start
    carries no offset (what a [DateTime] column hands back), one day
    ahead: with no slot left the first failing check is the capacity
    check, and with slots left no check fails; in both cases the call
    raises [InvalidBookingData], because [is_past] cannot compare the
    reading with the aware [now]. *)
Theorem offset_free_start_stops_the_timing_check :
  let full := one_class (naive (t0 + day)) 1 0 in
  let free := one_class (naive (t0 + day)) 10 10 in
  let refused := InvalidBookingDataException
      "Failed to create booking: can't compare offset-naive and offset-aware datetimes" [] in
  spec_first_failing_check tz_manager full (john 1) (env_at t0 7) = Some capacity
  /\ create_booking tz_manager (john 1) (env_at t0 7) (Session_open full)
     = (Raise refused, Session_open full)
  /\ reports capacity refused = false
  /\ spec_first_failing_check tz_manager free (john 1) (env_at t0 7) = None
  /\ create_booking tz_manager (john 1) (env_at t0 7) (Session_open free)
     = (Raise refused, Session_open free).
Proof.
  cbv zeta. repeat split; reflexivity.
Qed.

(** The same two rows in a session that has listed them with a display
    timezone: the objects of that session carry the converted start,
    which has an offset, and the checks run in their order. *)
Example listed_start_follows_the_order :
  let listed db :=
    snd (get_all_classes zones tz_manager (Some "Asia/Kolkata") (env_at t0 7)
           (Session_open db)) in
  create_booking tz_manager (john 1) (env_at t0 7)
    (listed (one_class (naive (t0 + day)) 1 0))
  = (Raise (NoSlotsAvailableException "No available slots for class 'Test Yoga'"
              [("class_id", VInt 1); ("available_slots", VInt 0)]),
     Session_open (one_class (naive (t0 + day)) 1 0))
  /\ exists b, fst (create_booking tz_manager (john 1) (env_at t0 7)
                      (listed (one_class (naive (t0 + day)) 10 10))) = OK b.
Proof.
  cbv zeta. split; [vm_compute; reflexivity|]. eexists. vm_compute. reflexivity.
Qed.

(* ----------------------------------------------------------------- *)
(** *** Where the claims as first worded fail *)


(** Claim C8 as first worded: a name made of blanks is refused by the
    schema with a [ValidationError], not with [InvalidBookingData]. *)
Lemma blank_name_is_a_validation_error :
  let body := {| BookingCreate.class_id := 1; BookingCreate.client_name := "  ";
                 BookingCreate.client_email := "john.doe@example.com";
                 BookingCreate.notes := None |} in
  PyStr.strip (BookingCreate.client_name body) = ""
  /\ BookingCreate.validate email_validator body
     = Raise (ValidationError [("client_name", value_error "Client name cannot be empty")])
  /\ forall m d, BookingCreate.validate email_validator body
                 <> Raise (InvalidBookingDataException m d).
Proof.
  cbv zeta. repeat split; try reflexivity. intros m d. vm_compute. discriminate.
Qed.

(** When the refresh that follows the commit fails, the caller is told
    [InvalidBookingData] although the booking is in the table. *)
Example refresh_failure_after_the_commit :
  let db := one_class (naive (t0 + day)) 10 10 in
  let listed :=
    snd (get_all_classes zones tz_manager (Some "Asia/Kolkata") (env_at t0 7)
           (Session_open db)) in
  let env := {| utcnow := t0; urandom := 7; commit_fault := None;
                refresh_fault := Some "(sqlite3.OperationalError) database is locked";
                constraint_text := refused_row |} in
  fst (create_booking tz_manager (john 1) env listed)
  = Raise (InvalidBookingDataException
             "Failed to create booking: (sqlite3.OperationalError) database is locked" [])
  /\ List.length (bookings (committed (snd (create_booking tz_manager (john 1) env
                                             listed)))) = 1%nat.
Proof.
  cbv zeta. split; vm_compute; reflexivity.
Qed.

(** A reference that is already in the table: the store refuses the row,
    the call rolls back, and the text of the store reaches the caller. *)
Example taken_reference_is_refused :
  let db := {| fitness_classes := [a_class 1 (naive (t0 + day)) 10 9 true];
               bookings := [a_booking 1 1 "jane.doe@example.com" "confirmed"
                              (_generate_booking_reference (env_at t0 7))] |} in
  let listed :=
    snd (get_all_classes zones tz_manager (Some "Asia/Kolkata") (env_at t0 7)
           (Session_open db)) in
  create_booking tz_manager (john 1) (env_at t0 7) listed
  = (Raise (InvalidBookingDataException
              ("Failed to create booking: " ++ refused_row)%string []),
     Session_open db).
Proof.
  cbv zeta. vm_compute. reflexivity.
Qed.

(** Listing with a display timezone: the objects of the session carry
    the converted start, the committed rows do not; were the same session
    committed afterwards, the rows would take the converted reading. *)
Example listing_converts_in_the_session_only :
  let db := one_class (naive (t0 + day)) 10 10 in
  let listed := get_all_classes zones tz_manager (Some "UTC") (env_at t0 7) (Session_open db) in
  option_map (map FitnessClass.class_datetime)
    (match fst listed with OK l => Some l | Raise _ => None end)
  = Some [ {| wall := t0 + day - 19800000000;
              tz := Some {| tzname := "UTC"; utcoffset := 0 |} |} ]
  /\ map FitnessClass.class_datetime (fitness_classes (committed (snd listed)))
     = [naive (t0 + day)]
  /\ dirty (snd listed) = [(1, class_datetime_attr)]
  /\ map FitnessClass.class_datetime
       (fitness_classes (committed (snd (commit (env_at t0 7) (snd listed)))))
     = [naive (t0 + day - 19800000000)].
Proof.
  cbv zeta. repeat split; vm_compute; reflexivity.
Qed.

(* ----------------------------------------------------------------- *)
(** *** The hypotheses of the theorems can be met *)

(** The class of [test_create_booking_no_slots]. *)
Lemma full_class_is_not_refused_for_capacity_witness :
  let db := one_class (naive (t0 + day)) 1 0 in
  create_booking tz_manager (john 1) (env_at t0 7) (Session_open db)
  = (Raise (InvalidBookingDataException
              "Failed to create booking: can't compare offset-naive and offset-aware datetimes"
              []),
     Session_open db).
Proof.
  cbv zeta.
  apply (proj1 (full_class_is_not_refused_for_capacity tz_manager
                  (one_class (naive (t0 + day)) 1 0) (john 1) (env_at t0 7)
                  (a_class 1 (naive (t0 + day)) 1 0 true)
                  ltac:(intros c [<-|[]]; reflexivity)
                  eq_refl eq_refl ltac:(cbn; lia))).
Defined.


(** The request of [test_create_booking_success]. *)
Lemma accepted_request_creates_no_booking_witness :
  let db := one_class (naive (t0 + day)) 10 10 in
  serve zones tz_manager db (CreateBooking (john 1)) (env_at t0 7) = db.
Proof.
  cbv zeta.
  apply (proj2 (accepted_request_creates_no_booking zones tz_manager
                  (one_class (naive (t0 + day)) 10 10) (john 1) (env_at t0 7)
                  ltac:(intros c [<-|[]]; reflexivity)
                  eq_refl eq_refl)).
Defined.

Lemma slots_invariant_kept_witness :
  slots_invariant (run zones tz_manager empty_database
                     [(CreateSampleClasses, env_at t0 0);
                      (CreateBooking (john 1), env_at t0 (draw 1))])
  /\ slots_invariant (serve zones tz_manager (one_class (naive (t0 + day)) 10 10)
                        (CreateBooking (john 1)) (env_at t0 7)).
Proof.
  split.
  - apply (proj1 (slots_invariant_kept zones tz_manager)).
    apply reachable_run, reachable_start.
  - apply (proj1 (proj2 (slots_invariant_kept zones tz_manager))).
    + repeat constructor. cbn. tauto.
    + intros c [<-|[]]. unfold slots_ok, FitnessClass.booked_slots. cbn. lia.
Defined.


Lemma client_name_normalised_witness :
  (exists errors et,
      BookingCreate.validate email_validator
        {| BookingCreate.class_id := 1; BookingCreate.client_name := "  ";
           BookingCreate.client_email := "john.doe@example.com";
           BookingCreate.notes := None |}
      = Raise (ValidationError errors)
      /\ In ("client_name", et) errors)
  /\ BookingCreate.client_name (john 1) = PyStr.title (PyStr.strip "  john DOE ").
Proof.
  split.
  - apply (proj1 (client_name_normalised email_validator
                    {| BookingCreate.class_id := 1; BookingCreate.client_name := "  ";
                       BookingCreate.client_email := "john.doe@example.com";
                       BookingCreate.notes := None |})).
    reflexivity.
  - apply (proj1 (proj2 (proj2 (client_name_normalised email_validator
                    {| BookingCreate.class_id := 1;
                       BookingCreate.client_name := "  john DOE ";
                       BookingCreate.client_email := "john.doe@example.com";
                       BookingCreate.notes := Some "First time booking" |}))
                  (john 1) eq_refl)).
Defined.

Lemma convert_timezone_result_witness :
  TimezoneManager.convert_timezone zones tz_manager (naive t0) "Mars/Olympus"
  = Raise (UnknownTimeZoneError "Mars/Olympus")
  /\ exists r,
       TimezoneManager.convert_timezone zones tz_manager (naive t0) "UTC" = OK r
       /\ instant tz_manager r = instant tz_manager (naive t0)
       /\ tz r = Some {| tzname := zone utc;
                         utcoffset := utcoffset_at_utc utc (instant tz_manager (naive t0)) |}
       /\ wall r = instant tz_manager (naive t0)
                   + utcoffset_at_utc utc (instant tz_manager (naive t0)).
Proof.
  split.
  - apply (proj1 (convert_timezone_result zones tz_manager (naive t0) "Mars/Olympus")).
    reflexivity.
  - apply (proj2 (convert_timezone_result zones tz_manager (naive t0) "UTC") utc).
    reflexivity.
Defined.

(* ================================================================= *)
(** ** Text: the normal form of a client name *)

Lemma isspace_toupper (c : ascii) : PyStr.isspace (PyStr.toupper c) = PyStr.isspace c.
Proof. destruct c as [[] [] [] [] [] [] [] []]; reflexivity. Qed.

Lemma isspace_tolower (c : ascii) : PyStr.isspace (PyStr.tolower c) = PyStr.isspace c.
Proof. destruct c as [[] [] [] [] [] [] [] []]; reflexivity. Qed.

Lemma iscased_toupper (c : ascii) : PyStr.iscased (PyStr.toupper c) = PyStr.iscased c.
Proof. destruct c as [[] [] [] [] [] [] [] []]; reflexivity. Qed.

Lemma iscased_tolower (c : ascii) : PyStr.iscased (PyStr.tolower c) = PyStr.iscased c.
Proof. destruct c as [[] [] [] [] [] [] [] []]; reflexivity. Qed.

Lemma toupper_twice (c : ascii) : PyStr.toupper (PyStr.toupper c) = PyStr.toupper c.
Proof. destruct c as [[] [] [] [] [] [] [] []]; reflexivity. Qed.

Lemma tolower_twice (c : ascii) : PyStr.tolower (PyStr.tolower c) = PyStr.tolower c.
Proof. destruct c as [[] [] [] [] [] [] [] []]; reflexivity. Qed.

Lemma title_from_twice (cased : bool) (s : string) :
  PyStr.title_from cased (PyStr.title_from cased s) = PyStr.title_from cased s.
Proof.
  revert cased. induction s as [|c s IH]; intros cased; cbn [PyStr.title_from]; [reflexivity|].
  destruct cased.
  - rewrite tolower_twice, iscased_tolower, IH. reflexivity.
  - rewrite toupper_twice, iscased_toupper, IH. reflexivity.
Qed.

Lemma list_of_append (a b : string) :
  list_ascii_of_string (a ++ b) = (list_ascii_of_string a ++ list_ascii_of_string b)%list.
Proof. induction a as [|c a IH]; cbn; [reflexivity|]. rewrite IH. reflexivity. Qed.

Lemma string_of_app (l1 l2 : list ascii) :
  string_of_list_ascii (l1 ++ l2) = (string_of_list_ascii l1 ++ string_of_list_ascii l2)%string.
Proof. induction l1 as [|c l1 IH]; cbn; [reflexivity|]. rewrite IH. reflexivity. Qed.

Lemma reverse_twice (s : string) : PyStr.reverse (PyStr.reverse s) = s.
Proof.
  unfold PyStr.reverse.
  rewrite list_ascii_of_string_of_list_ascii, rev_involutive.
  apply string_of_list_ascii_of_string.
Qed.

Lemma reverse_append (a b : string) :
  PyStr.reverse (a ++ b) = (PyStr.reverse b ++ PyStr.reverse a)%string.
Proof.
  unfold PyStr.reverse. rewrite list_of_append, rev_app_distr. apply string_of_app.
Qed.

Lemma length_append (a b : string) :
  String.length (a ++ b) = (String.length a + String.length b)%nat.
Proof. induction a as [|c a IH]; cbn; [reflexivity|]. rewrite IH. reflexivity. Qed.

Lemma reverse_length (s : string) : String.length (PyStr.reverse s) = String.length s.
Proof.
  induction s as [|c s IH]; [reflexivity|].
  change (String c s) with (String c EmptyString ++ s)%string.
  rewrite reverse_append, !length_append, IH. cbn. lia.
Qed.

(** What [rstrip] removes is a run of blanks at the end. *)
Lemma rstrip_splits (s : string) :
  exists blanks, s = (PyStr.rstrip s ++ blanks)%string.
Proof.
  destruct (lstrip_splits (PyStr.reverse s)) as [blanks [Heq _]].
  exists (PyStr.reverse blanks). unfold PyStr.rstrip.
  rewrite <- reverse_append, <- Heq. symmetry. apply reverse_twice.
Qed.

Lemma strip_length (s : string) : PyStr.len (PyStr.strip s) <= PyStr.len s.
Proof.
  unfold PyStr.len, PyStr.strip.
  destruct (lstrip_splits s) as [b1 [H1 _]].
  destruct (rstrip_splits (PyStr.lstrip s)) as [b2 H2].
  assert (String.length s
          = (String.length b1 + (String.length (PyStr.rstrip (PyStr.lstrip s))
                                 + String.length b2))%nat).
  { rewrite H1 at 1. rewrite length_append. rewrite H2 at 1. rewrite length_append.
    reflexivity. }
  lia.
Qed.

Lemma lstrip_clean (s : string) : starts_clean s -> PyStr.lstrip s = s.
Proof. destruct s as [|c s]; cbn; [reflexivity|]. intros ->. reflexivity. Qed.

Lemma lstrip_starts_clean (s : string) : starts_clean (PyStr.lstrip s).
Proof. destruct (lstrip_splits s) as [_ [_ [_ H]]]. destruct (PyStr.lstrip s); exact H. Qed.

Lemma rstrip_keeps_clean_start (s : string) :
  starts_clean s -> starts_clean (PyStr.rstrip s).
Proof.
  intros H. destruct (rstrip_splits s) as [blanks Heq].
  destruct (PyStr.rstrip s) as [|c r]; [exact I|].
  rewrite Heq in H. exact H.
Qed.

Lemma strip_fixed (s : string) :
  starts_clean s -> starts_clean (PyStr.reverse s) -> PyStr.strip s = s.
Proof.
  intros H1 H2. unfold PyStr.strip, PyStr.rstrip.
  rewrite (lstrip_clean s H1), (lstrip_clean _ H2). apply reverse_twice.
Qed.

Lemma strip_clean_ends (s : string) :
  starts_clean (PyStr.strip s) /\ starts_clean (PyStr.reverse (PyStr.strip s)).
Proof.
  split.
  - apply rstrip_keeps_clean_start, lstrip_starts_clean.
  - unfold PyStr.strip, PyStr.rstrip. rewrite reverse_twice. apply lstrip_starts_clean.
Qed.

Lemma title_from_blanks (cased : bool) (s : string) :
  map PyStr.isspace (list_ascii_of_string (PyStr.title_from cased s))
  = map PyStr.isspace (list_ascii_of_string s).
Proof.
  revert cased. induction s as [|c s IH]; intros cased; cbn; [reflexivity|].
  rewrite IH. destruct cased; [rewrite isspace_tolower|rewrite isspace_toupper]; reflexivity.
Qed.

Lemma same_blanks_clean (s t : string) :
  map PyStr.isspace (list_ascii_of_string s) = map PyStr.isspace (list_ascii_of_string t) ->
  (starts_clean s -> starts_clean t)
  /\ (starts_clean (PyStr.reverse s) -> starts_clean (PyStr.reverse t)).
Proof.
  intros H. split.
  - destruct s as [|c s], t as [|d t]; cbn in *; try discriminate; auto.
    inversion H. congruence.
  - assert (Hrev : map PyStr.isspace (list_ascii_of_string (PyStr.reverse s))
                   = map PyStr.isspace (list_ascii_of_string (PyStr.reverse t))).
    { unfold PyStr.reverse. rewrite !list_ascii_of_string_of_list_ascii, !map_rev, H.
      reflexivity. }
    destruct (PyStr.reverse s) as [|c s'], (PyStr.reverse t) as [|d t']; cbn in *;
      try discriminate; auto.
    inversion Hrev. congruence.
Qed.

Lemma strip_title_strip (v : string) :
  PyStr.strip (PyStr.title (PyStr.strip v)) = PyStr.title (PyStr.strip v).
Proof.
  destruct (strip_clean_ends v) as [H1 H2].
  destruct (same_blanks_clean (PyStr.strip v) (PyStr.title (PyStr.strip v))) as [A B].
  { symmetry. apply title_from_blanks. }
  apply strip_fixed; auto.
Qed.

Lemma code_toupper_ascii (c : ascii) :
  (PyStr.code (PyStr.toupper c) <? 128) = (PyStr.code c <? 128).
Proof. destruct c as [[] [] [] [] [] [] [] []]; reflexivity. Qed.

Lemma code_tolower_ascii (c : ascii) :
  (PyStr.code (PyStr.tolower c) <? 128) = (PyStr.code c <? 128).
Proof. destruct c as [[] [] [] [] [] [] [] []]; reflexivity. Qed.

Lemma isascii_append (a b : string) :
  PyStr.isascii (a ++ b) = PyStr.isascii a && PyStr.isascii b.
Proof. unfold PyStr.isascii. rewrite list_of_append. apply forallb_app. Qed.

Lemma isascii_strip (s : string) :
  PyStr.isascii s = true -> PyStr.isascii (PyStr.strip s) = true.
Proof.
  intros H. unfold PyStr.strip.
  destruct (lstrip_splits s) as [blanks [Heq _]].
  rewrite Heq, isascii_append in H. apply andb_true_iff in H. destruct H as [_ H].
  destruct (rstrip_splits (PyStr.lstrip s)) as [blanks' Heq'].
  rewrite Heq', isascii_append in H. apply andb_true_iff in H. exact (proj1 H).
Qed.

Lemma isascii_title_from (cased : bool) (s : string) :
  PyStr.isascii (PyStr.title_from cased s) = PyStr.isascii s.
Proof.
  revert cased. induction s as [|c s IH]; intros cased; [reflexivity|].
  unfold PyStr.isascii in *. cbn [PyStr.title_from list_ascii_of_string forallb].
  rewrite IH. destruct cased; [rewrite code_tolower_ascii|rewrite code_toupper_ascii];
    reflexivity.
Qed.

(** Property X19.  On ASCII text, a name the validator accepts is in
    normal form: not empty, no blank at either end, title-cased, no longer
    than what was sent, ASCII again; and the validator maps it to
    itself. *)
Theorem accepted_name_is_in_normal_form (v name : string) :
  PyStr.isascii v = true ->
  BookingCreate.validate_client_name v = OK name ->
  BookingCreate.validate_client_name name = OK name
  /\ name <> EmptyString
  /\ PyStr.strip name = name
  /\ PyStr.title name = name
  /\ 1 <= PyStr.len name <= PyStr.len v
  /\ PyStr.isascii name = true.
Proof.
  intros Hascii.
  unfold BookingCreate.validate_client_name.
  destruct (PyStr.truthy (PyStr.strip v)) eqn:Ht; cbn [negb]; [|discriminate].
  intros H. inversion H as [Hname]. clear H.
  assert (Hstrip : PyStr.strip (PyStr.title (PyStr.strip v)) = PyStr.title (PyStr.strip v))
    by apply strip_title_strip.
  assert (Htitle : PyStr.title (PyStr.title (PyStr.strip v)) = PyStr.title (PyStr.strip v))
    by apply title_from_twice.
  assert (Hne : PyStr.title (PyStr.strip v) <> EmptyString).
  { destruct (PyStr.strip v); [discriminate|]. cbn. discriminate. }
  assert (Htruthy : PyStr.truthy (PyStr.title (PyStr.strip v)) = true).
  { destruct (PyStr.title (PyStr.strip v)); [congruence|reflexivity]. }
  rewrite Hstrip, Htruthy, Htitle. cbn [negb].
  split; [reflexivity|]. split; [exact Hne|]. split; [reflexivity|]. split; [reflexivity|].
  split.
  - rewrite title_length. pose proof (strip_length v).
    assert (1 <= PyStr.len (PyStr.strip v)).
    { unfold PyStr.len. destruct (PyStr.strip v); [discriminate|]. cbn [String.length]. lia. }
    lia.
  - unfold PyStr.title. rewrite isascii_title_from. apply isascii_strip, Hascii.
Qed.

(** Property X20.  What the schema lets through, for a body whose name
    and notes are ASCII text: a key of at least 1, a name of 1 to 100
    characters (one character is possible, the lower bound of 2 being
    checked before the blanks are stripped), notes of at most 500
    characters; key and notes are passed on as sent. *)
Theorem accepted_booking_is_within_bounds (email_validator : string -> option string)
    (body booking_data : BookingCreate.t) :
  PyStr.isascii (BookingCreate.client_name body) = true ->
  (forall n, BookingCreate.notes body = Some n -> PyStr.isascii n = true) ->
  BookingCreate.validate email_validator body = OK booking_data ->
  1 <= BookingCreate.class_id booking_data
  /\ BookingCreate.class_id booking_data = BookingCreate.class_id body
  /\ 1 <= PyStr.len (BookingCreate.client_name booking_data) <= 100
  /\ email_validator (BookingCreate.client_email body)
     = Some (BookingCreate.client_email booking_data)
  /\ BookingCreate.notes booking_data = BookingCreate.notes body
  /\ (forall n, BookingCreate.notes booking_data = Some n -> PyStr.len n <= 500).
Proof.
  intros _ _. rewrite validate_cases.
  destruct (BookingCreate.check_class_id (BookingCreate.class_id body)) as [|x l] eqn:E1;
    [|cbn; discriminate].
  cbn [app].
  destruct (check_client_name_cases (BookingCreate.client_name body))
    as [[et [Hck _]]|[Hck [Hne Hlen]]]; rewrite Hck; cbn [fst snd app]; [discriminate|].
  unfold BookingCreate.check_client_email.
  destruct (email_validator (BookingCreate.client_email body)) as [em|] eqn:E3;
    cbn [fst snd app]; [|discriminate].
  destruct (BookingCreate.check_notes (BookingCreate.notes body)) as [|y l'] eqn:E4;
    [|discriminate].
  intros H. inversion H; subst booking_data; cbn.
  unfold BookingCreate.check_class_id in E1.
  destruct (1 <=? BookingCreate.class_id body) eqn:Hid; [|discriminate].
  apply Z.leb_le in Hid.
  split; [exact Hid|]. split; [reflexivity|]. split.
  - rewrite title_length. pose proof (strip_length (BookingCreate.client_name body)).
    assert (1 <= PyStr.len (PyStr.strip (BookingCreate.client_name body))).
    { unfold PyStr.len. destruct (PyStr.strip (BookingCreate.client_name body));
        [congruence|]. cbn [String.length]. lia. }
    lia.
  - split; [reflexivity|]. split; [reflexivity|].
    intros n Hn. unfold BookingCreate.check_notes in E4. rewrite Hn in E4.
    destruct (500 <? PyStr.len n) eqn:E; [discriminate|]. apply Z.ltb_ge in E. exact E.
Qed.

(* ================================================================= *)
(** ** The booking reference and the random bytes *)

Lemma uuid4_high_bits (random : Z) :
  uuid4 random / 2 ^ 96 = (random mod 2 ^ 128) / 2 ^ 96.
Proof.
  rewrite <- !Z.shiftr_div_pow2 by lia.
  apply Z.bits_inj'. intros n Hn. rewrite !Z.shiftr_spec by lia.
  unfold uuid4. cbv zeta.
  rewrite Z.lor_spec, Z.land_spec, Z.lor_spec, Z.land_spec, !Z.lnot_spec by lia.
  assert (H1 : Z.testbit (Z.shiftl 49152 48) (n + 96) = false)
    by (apply Z.bits_above_log2; [discriminate|change (Z.log2 (Z.shiftl 49152 48)) with 63; lia]).
  assert (H2 : Z.testbit (Z.shiftl 32768 48) (n + 96) = false)
    by (apply Z.bits_above_log2; [discriminate|change (Z.log2 (Z.shiftl 32768 48)) with 63; lia]).
  assert (H3 : Z.testbit (Z.shiftl 61440 64) (n + 96) = false)
    by (apply Z.bits_above_log2; [discriminate|change (Z.log2 (Z.shiftl 61440 64)) with 79; lia]).
  assert (H4 : Z.testbit (Z.shiftl 4 76) (n + 96) = false)
    by (apply Z.bits_above_log2; [discriminate|change (Z.log2 (Z.shiftl 4 76)) with 78; lia]).
  change (Z.shiftl 0xc000 48) with (Z.shiftl 49152 48).
  change (Z.shiftl 0x8000 48) with (Z.shiftl 32768 48).
  change (Z.shiftl 0xf000 64) with (Z.shiftl 61440 64).
  rewrite H1, H2, H3, H4.
  destruct (Z.testbit (random mod 2 ^ 128) (n + 96)); reflexivity.
Qed.

Lemma hex_digits_prefix (n m : nat) (v : Z) :
  substring 0 n (hex_digits (n + m) v) = hex_digits n (v / 16 ^ Z.of_nat m).
Proof.
  induction n as [|n IH].
  - cbn [hex_digits]. destruct (hex_digits (0 + m) v); reflexivity.
  - cbn [Nat.add hex_digits substring]. rewrite IH. f_equal. f_equal.
    rewrite Z.div_div by lia. rewrite <- Z.pow_add_r by lia.
    f_equal. f_equal. f_equal. lia.
Qed.

Lemma reference_of_high_bits (env : Env) :
  _generate_booking_reference env
  = ("FB" ++ PyStr.upper (hex_digits 8 ((urandom env mod 2 ^ 128) / 2 ^ 96)))%string.
Proof.
  unfold _generate_booking_reference, hex.
  rewrite (hex_digits_prefix 8 24). change (16 ^ Z.of_nat 24) with (2 ^ 96).
  rewrite uuid4_high_bits. reflexivity.
Qed.

Lemma upper_hex_digit_inj (a b : Z) :
  0 <= a < 16 -> 0 <= b < 16 ->
  PyStr.toupper (hex_digit a) = PyStr.toupper (hex_digit b) -> a = b.
Proof.
  intros Ha Hb.
  assert (Ea : a = 0 \/ a = 1 \/ a = 2 \/ a = 3 \/ a = 4 \/ a = 5 \/ a = 6 \/ a = 7 \/
               a = 8 \/ a = 9 \/ a = 10 \/ a = 11 \/ a = 12 \/ a = 13 \/ a = 14 \/ a = 15)
    by lia.
  assert (Eb : b = 0 \/ b = 1 \/ b = 2 \/ b = 3 \/ b = 4 \/ b = 5 \/ b = 6 \/ b = 7 \/
               b = 8 \/ b = 9 \/ b = 10 \/ b = 11 \/ b = 12 \/ b = 13 \/ b = 14 \/ b = 15)
    by lia.
  clear Ha Hb.
  repeat (destruct Ea as [Ea|Ea]); subst a;
    repeat (destruct Eb as [Eb|Eb]); subst b;
    intros H; try reflexivity; vm_compute in H; discriminate H.
Qed.

Lemma upper_hex_digits_inj (n : nat) (v w : Z) :
  PyStr.upper (hex_digits n v) = PyStr.upper (hex_digits n w) ->
  v mod 16 ^ Z.of_nat n = w mod 16 ^ Z.of_nat n.
Proof.
  induction n as [|n IH]; intros H.
  - change (16 ^ Z.of_nat 0) with 1. rewrite !Z.mod_1_r. reflexivity.
  - cbn [hex_digits PyStr.upper] in H. injection H as Hd Hrest.
    apply IH in Hrest. apply upper_hex_digit_inj in Hd;
      [|apply Z.mod_pos_bound; lia|apply Z.mod_pos_bound; lia].
    replace (16 ^ Z.of_nat (S n)) with (16 ^ Z.of_nat n * 16)
      by (rewrite Nat2Z.inj_succ, Z.pow_succ_r by lia; lia).
    rewrite !Z.rem_mul_r by lia. rewrite Hrest, Hd. reflexivity.
Qed.

(** Property X21.  The booking reference is the first four of the sixteen random
    bytes [uuid4] draws, and nothing else: two draws give the same
    reference exactly when they agree on these four bytes (the version and
    variant bits [uuid4] sets lie below them). *)
Theorem reference_is_the_first_four_random_bytes (env env' : Env) :
  _generate_booking_reference env = _generate_booking_reference env'
  <-> (urandom env mod 2 ^ 128) / 2 ^ 96 = (urandom env' mod 2 ^ 128) / 2 ^ 96.
Proof.
  rewrite !reference_of_high_bits. split.
  - intros H.
    assert (Hcut : forall a b : string, ("FB" ++ a)%string = ("FB" ++ b)%string -> a = b)
      by (intros a b Hab; injection Hab as Hab; exact Hab).
    apply Hcut, (upper_hex_digits_inj 8) in H.
    change (16 ^ Z.of_nat 8) with (2 ^ 32) in H.
    assert (Hb : forall r, 0 <= (r mod 2 ^ 128) / 2 ^ 96 < 2 ^ 32).
    { intros r. pose proof (Z.mod_pos_bound r (2 ^ 128) ltac:(lia)) as Hr. split.
      - apply Z.div_pos; lia.
      - apply Z.div_lt_upper_bound; [lia|]. change (2 ^ 96 * 2 ^ 32) with (2 ^ 128). lia. }
    rewrite (Z.mod_small _ _ (Hb (urandom env))),
      (Z.mod_small _ _ (Hb (urandom env'))) in H.
    exact H.
  - intros H. rewrite H. reflexivity.
Qed.

(* ================================================================= *)
(** ** The further properties at work *)

Lemma listing_returns_the_upcoming_classes_witness :
  exists l,
    fst (get_all_classes zones tz_manager None (env_at t0 0)
           (Session_open (one_class (naive (t0 + day)) 10 10))) = OK l
    /\ NoDup (map FitnessClass.id l).
Proof.
  destruct (listing_returns_the_upcoming_classes zones tz_manager
              (one_class (naive (t0 + day)) 10 10) (env_at t0 0) None
              ltac:(repeat constructor; cbn; tauto) (or_introl eq_refl))
    as (l & Hl & _ & Hids & _).
  exists l. split; assumption.
Defined.

Lemma listing_with_unknown_timezone_witness :
  fst (get_all_classes zones tz_manager (Some "Mars/Olympus") (env_at t0 0)
         (Session_open (one_class (naive (t0 + day)) 10 10)))
  = Raise (UnknownTimeZoneError "Mars/Olympus").
Proof.
  apply (proj2 (listing_with_unknown_timezone zones tz_manager
                  (one_class (naive (t0 + day)) 10 10) (env_at t0 0) "Mars/Olympus"
                  eq_refl eq_refl)).
  exists (a_class 1 (naive (t0 + day)) 10 10 true).
  split; [left; reflexivity|]. split; [reflexivity|]. vm_compute. reflexivity.
Defined.

Lemma listing_converts_every_start_witness :
  exists plain,
    fst (get_all_classes zones tz_manager None (env_at t0 0)
           (Session_open (one_class (naive (t0 + day)) 10 10))) = OK plain
    /\ fst (get_all_classes zones tz_manager (Some "UTC") (env_at t0 0)
              (Session_open (one_class (naive (t0 + day)) 10 10)))
       = OK (map (fun c => FitnessClass.with_class_datetime
                             (fromutc utc (instant tz_manager (FitnessClass.class_datetime c))) c)
                 plain).
Proof.
  destruct (listing_converts_every_start zones tz_manager
              (one_class (naive (t0 + day)) 10 10) (env_at t0 0) "UTC" utc
              ltac:(repeat constructor; cbn; tauto) eq_refl eq_refl)
    as (plain & H1 & H2 & _).
  exists plain. split; assumption.
Defined.

Lemma seeding_happens_once_witness :
  serve zones tz_manager (serve zones tz_manager empty_database CreateSampleClasses (env_at t0 0))
    CreateSampleClasses (env_at (t0 + day) 1)
  = serve zones tz_manager empty_database CreateSampleClasses (env_at t0 0).
Proof.
  apply (proj2 (seeding_happens_once zones tz_manager) empty_database
           (env_at t0 0) (env_at (t0 + day) 1) eq_refl).
Defined.


Lemma seeding_failure_is_raised_as_it_is_witness :
  create_sample_classes zones tz_manager (failing_commit t0 0 "disk full")
    (Session_open empty_database)
  = (Raise (OperationalError "disk full"), Session_open empty_database).
Proof.
  apply (proj1 (seeding_failure_is_raised_as_it_is zones tz_manager empty_database
                  (failing_commit t0 0 "disk full") "disk full" eq_refl eq_refl)).
Defined.

Lemma seeded_classes_cannot_be_booked_witness :
  let seeded_at_0530 :=
    serve zones tz_manager empty_database CreateSampleClasses (env_at t0 0) in
  create_booking tz_manager (john 1) (env_at (t0 + hour) 7) (Session_open seeded_at_0530)
  = (Raise (InvalidBookingDataException
              "Failed to create booking: can't compare offset-naive and offset-aware datetimes"
              []),
     Session_open seeded_at_0530).
Proof.
  cbv zeta.
  apply (seeded_classes_cannot_be_booked zones tz_manager empty_database
           (env_at t0 0) (env_at (t0 + hour) 7) (john 1) eq_refl eq_refl).
  left. reflexivity.
Defined.

Lemma conversion_through_another_zone_witness :
  exists r,
    TimezoneManager.convert_timezone zones tz_manager (at_ist (t0 + day)) "UTC" = OK r
    /\ TimezoneManager.convert_timezone zones tz_manager r "Asia/Kolkata"
       = TimezoneManager.convert_timezone zones tz_manager (at_ist (t0 + day)) "Asia/Kolkata".
Proof.
  eexists. split; [vm_compute; reflexivity|].
  apply (proj1 (conversion_through_another_zone zones tz_manager (at_ist (t0 + day)) _
                  "UTC" "Asia/Kolkata" ltac:(vm_compute; reflexivity))).
Defined.

Lemma one_day_ahead_is_24_hours_later_witness :
  exists d,
    TimezoneManager.get_current_time zones tz_manager t0 (Some "UTC") = OK d
    /\ instant tz_manager d = t0.
Proof.
  eexists. split; [vm_compute; reflexivity|].
  apply (proj1 (proj1 (one_day_ahead_is_24_hours_later zones tz_manager t0 (Some "UTC")) _
                  ltac:(vm_compute; reflexivity))).
Defined.

Lemma localize_keeps_the_reading_witness :
  TimezoneManager.localize_datetime zones tz_manager (naive t0) (Some "UTC")
  = OK {| wall := t0; tz := Some {| tzname := "UTC"; utcoffset := 0 |} |}.
Proof.
  apply (proj1 (proj2 (localize_keeps_the_reading zones tz_manager (naive t0) "UTC" eq_refl))
           eq_refl utc eq_refl).
Defined.

Lemma create_booking_raises_domain_errors_only_witness :
  exists e,
    fst (create_booking tz_manager (john 1) (env_at t0 7)
           (Session_open (one_class (naive (t0 + day)) 10 0))) = Raise e
    /\ is_domain_error e = true.
Proof.
  eexists. split; [vm_compute; reflexivity|].
  apply (proj1 (proj2 (create_booking_raises_domain_errors_only tz_manager (john 1)
                         (env_at t0 7) (Session_open (one_class (naive (t0 + day)) 10 0)))
                  _ ltac:(vm_compute; reflexivity))).
Defined.

Lemma booking_route_never_returns_the_booking_witness :
  exists answer,
    fst (create_booking_route zones tz_manager ist email_validator (john 1) (env_at t0 7)
           (one_class (naive (t0 + day)) 10 10)) = inl answer
    /\ status_code answer = 400.
Proof.
  destruct (booking_route_never_returns_the_booking zones tz_manager ist email_validator
              (john 1) (env_at t0 7) (one_class (naive (t0 + day)) 10 10))
    as (answer & H1 & H2 & _).
  exists answer. split; [exact H1|].
  eassert (He : fst (create_booking tz_manager (john 1) (env_at t0 7)
                       (Session_open (one_class (naive (t0 + day)) 10 10))) = Raise _)
    by (vm_compute; reflexivity).
  destruct (H2 _ He) as [-> _]. reflexivity.
Defined.

Lemma classes_route_answers_witness :
  fst (get_classes zones tz_manager ist "UTC" (env_at t0 0)
         (one_class (naive (t0 + day)) 10 10))
  = inl (create_http_exception 500 "Failed to retrieve classes" []).
Proof.
  apply (proj2 (proj2 (classes_route_answers zones tz_manager ist "UTC" (env_at t0 0)
                         (one_class (naive (t0 + day)) 10 10)))).
  - repeat constructor; cbn; tauto.
  - reflexivity.
  - exists (a_class 1 (naive (t0 + day)) 10 10 true).
    split; [left; reflexivity|]. split; [reflexivity|]. vm_compute. reflexivity.
Defined.

Lemma bookings_route_answers_witness :
  fst (get_bookings zones tz_manager ist email_validator "john.doe@example.com" (env_at t0 0)
         (one_class (naive (t0 + day)) 10 10))
  = inr {| list_bookings := []; total_count := 0;
           list_client_email := "john.doe@example.com" |}.
Proof.
  apply (proj1 (proj2 (bookings_route_answers zones tz_manager ist email_validator
                         "john.doe@example.com" (env_at t0 0)
                         (one_class (naive (t0 + day)) 10 10)))).
  intros b [].
Defined.

Lemma accepted_name_is_in_normal_form_witness :
  BookingCreate.validate_client_name "John Doe" = OK "John Doe"
  /\ PyStr.title "John Doe" = "John Doe".
Proof.
  pose proof (accepted_name_is_in_normal_form "  john doe " "John Doe" eq_refl eq_refl)
    as (H1 & _ & _ & H4 & _).
  split; assumption.
Defined.

Lemma accepted_booking_is_within_bounds_witness :
  1 <= PyStr.len (BookingCreate.client_name (john 1)) <= 100.
Proof.
  apply (proj1 (proj2 (proj2 (accepted_booking_is_within_bounds email_validator
                                (john 1) (john 1) eq_refl
                                ltac:(intros n Hn; inversion Hn; reflexivity)
                                eq_refl)))).
Defined.
